(** * todo-api: the Express server of [server.js]

    A shallow embedding of the request handlers of [server.js]: the
    [authenticateToken] middleware with its token blacklist, signup, login,
    logout and the todo CRUD and search routes.

    The three npm dependencies the handlers call are not part of the
    program.  [jsonwebtoken] and the regular-expression engine behind
    MongoDB's [$regex] are taken as interfaces ([JwtLib], [RegexEngine]);
    Mongoose's models are embedded as lists of documents with the schema
    rules that [server.js] declares.  The rate limiter and the access log
    run in front of every route and are left out: a request here is one
    that reached its route, and requests are served one at a time. *)

From stdpp Require Import gmap strings list.
From Stdlib Require Import ZArith Ascii String.

Local Open Scope string_scope.
Local Open Scope list_scope.
Local Open Scope Z_scope.

(** ** JavaScript values the handlers rely on *)

(** A value of the parsed JSON body: a string, or an object whose members
    are strings, which is where Mongoose reads query operators such as
    [{ "$ne": "x" }].  Numbers, booleans, [null], arrays and deeper
    objects are left out. *)
Inductive BodyValue :=
| BStr (s : string)
| BObj (members : gmap string string).

Module JS.

(** [!!v] for a value that is a string or [undefined]. *)
Definition truthy (v : option string) : bool :=
  match v with
  | Some s => negb (String.eqb s "")
  | None => false
  end.

(** [s.split(sep)] for a separator of one character. *)
Fixpoint split (sep : ascii) (s : string) : list string :=
  match s with
  | EmptyString => [EmptyString]
  | String c s' =>
      if Ascii.eqb c sep then EmptyString :: split sep s'
      else match split sep s' with
           | w :: ws => String c w :: ws
           | [] => [String c EmptyString]
           end
  end.

(** [xs.includes(x)] on an array of strings. *)
Definition includes (xs : list string) (x : string) : bool :=
  existsb (String.eqb x) xs.

(** [!!v] for a value of the body or [undefined]: an object is truthy. *)
Definition truthy_value (v : option BodyValue) : bool :=
  match v with
  | Some (BStr s) => negb (String.eqb s "")
  | Some (BObj _) => true
  | None => false
  end.

(** [xs.includes(v)] for a value of the body: strict equality, which an
    object has with no string. *)
Definition includes_value (xs : list string) (v : option BodyValue) : bool :=
  match v with
  | Some (BStr s) => includes xs s
  | _ => false
  end.

(** [xs.push(x)] *)
Definition push (xs : list string) (x : string) : list string := xs ++ [x].

End JS.

(** ** Documents and schemas *)

Definition ObjectId := N.

(** todoSchema *)
Record Todo := mkTodo {
  t_id : ObjectId;
  t_userId : ObjectId;
  t_title : string;
  t_description : string;
  t_status : string;
  t_createdAt : Z;
  t_updatedAt : Z
}.

(** userSchema *)
Record User := mkUser {
  u_id : ObjectId;
  u_username : string;
  u_password : string
}.

(** The payload [jwt.verify] hands to its callback: the signed [{ userId }]
    with the [iat] and [exp] claims the library adds. *)
Record JwtPayload := mkPayload {
  p_userId : ObjectId;
  p_iat : Z;
  p_exp : Z
}.

(** The errors of [jsonwebtoken]'s [verify]. *)
Inductive VerifyError :=
| JsonWebTokenError (message : string)
| TokenExpiredError
| NotBeforeError.

(** Errors thrown by Mongoose or the database, caught by the handlers'
    [catch] blocks and reported as [{ error: err.message }]. *)
Inductive DbError :=
| CastError (path : string)
| ValidationError (paths : list string)
| DuplicateKeyError (path : string)
| RegexError
| OperatorError (path : string).

Inductive Value :=
| VNull
| VId (o : ObjectId)
| VStr (s : string)
| VDate (d : Z).

(** A term of a query filter: [{ path: value }],
    [{ path: { $regex: pattern, $options: options } }], or
    [{ path: operators }] with the operators a request body supplied. *)
Inductive Cond :=
| CEq (v : Value)
| CRegex (pattern options : string)
| COps (operators : gmap string string).

Global Instance BodyValue_eq_dec : EqDecision BodyValue.
Proof. solve_decision. Defined.
Global Instance Value_eq_dec : EqDecision Value.
Proof. solve_decision. Defined.
Global Instance Cond_eq_dec : EqDecision Cond.
Proof. solve_decision. Defined.
Global Instance Todo_eq_dec : EqDecision Todo.
Proof. solve_decision. Defined.
Global Instance User_eq_dec : EqDecision User.
Proof. solve_decision. Defined.

(** ** The libraries' interfaces *)

(** [jwt.sign(payload, key, { expiresIn })] and [jwt.verify(token, key)].
    Both read the system clock, here the argument [now] in milliseconds
    ([Date.now()]); [expiresIn] is in seconds. *)
Class JwtLib := {
  jwt_sign : ObjectId -> string -> Z -> Z -> string;
  jwt_verify : string -> string -> Z -> VerifyError + JwtPayload
}.

(** The engine behind [$regex]: whether a pattern compiles, and whether it
    matches somewhere in a subject string. *)
Class RegexEngine := {
  regex_valid : string -> string -> bool;
  regex_test : string -> string -> string -> bool
}.

(** A Mongoose model: how a filter reads a document's paths. *)
Class Document (D : Type) := {
  field : string -> D -> option Value
}.

Global Instance Todo_document : Document Todo := {|
  field k t :=
    if String.eqb k "_id" then Some (VId (t_id t))
    else if String.eqb k "userId" then Some (VId (t_userId t))
    else if String.eqb k "title" then Some (VStr (t_title t))
    else if String.eqb k "description" then Some (VStr (t_description t))
    else if String.eqb k "status" then Some (VStr (t_status t))
    else if String.eqb k "createdAt" then Some (VDate (t_createdAt t))
    else if String.eqb k "updatedAt" then Some (VDate (t_updatedAt t))
    else None
|}.

Global Instance User_document : Document User := {|
  field k u :=
    if String.eqb k "_id" then Some (VId (u_id u))
    else if String.eqb k "username" then Some (VStr (u_username u))
    else if String.eqb k "password" then Some (VStr (u_password u))
    else None
|}.

(** ** Mongoose: queries and the two models *)

Module Mongoose.

(** The cast of a string to an ObjectId: 24 hexadecimal digits. *)
Definition hex_digit (c : ascii) : option N :=
  let n := N_of_ascii c in
  if ((48 <=? n) && (n <=? 57))%N then Some (n - 48)%N
  else if ((97 <=? n) && (n <=? 102))%N then Some (n - 87)%N
  else if ((65 <=? n) && (n <=? 70))%N then Some (n - 55)%N
  else None.

Fixpoint hex_value (acc : N) (s : string) : option N :=
  match s with
  | EmptyString => Some acc
  | String c s' =>
      match hex_digit c with
      | Some d => hex_value (16 * acc + d)%N s'
      | None => None
      end
  end.

Definition castObjectId (s : string) : option ObjectId :=
  if Nat.eqb (String.length s) 24 then hex_value 0%N s else None.

(** [castString]: the cast of a value to a String path.  A plain object
    does not cast, unless it has a non-empty member [_id], which then
    stands for it. *)
Definition castString (path : string) (v : BodyValue) : DbError + string :=
  match v with
  | BStr s => inr s
  | BObj members =>
      match members !! "_id" with
      | Some id => if String.eqb id "" then inl (CastError path) else inr id
      | None => inl (CastError path)
      end
  end.

(** The cast of a String path of a document or an update: [undefined]
    stays [undefined]. *)
Definition castPath (path : string) (v : option BodyValue)
  : DbError + option string :=
  match v with
  | None => inr None
  | Some v =>
      match castString path v with
      | inr s => inr (Some s)
      | inl e => inl e
      end
  end.

(** The string a required String path holds, when it has one that is not
    empty. *)
Definition required (path : string) (v : option BodyValue) : option string :=
  match castPath path v with
  | inr (Some s) => if String.eqb s "" then None else Some s
  | _ => None
  end.

(** The query operators a String path takes with a string argument;
    others are refused here. *)
Definition stringOperators : list string :=
  ["$eq"; "$ne"; "$gt"; "$gte"; "$lt"; "$lte"; "$regex"; "$options"].

Definition is_operator (k : string) : bool := String.prefix "$" k.

(** The cast of a value to a filter term of a String path: the driver
    sends [undefined] as [null]; an object with a key that starts with
    [$] is a set of operators, any other object casts like a value. *)
Definition castForQuery (path : string) (v : option BodyValue) : DbError + Cond :=
  match v with
  | None => inr (CEq VNull)
  | Some (BObj members) =>
      if existsb (fun kv => is_operator kv.1) (map_to_list members)
      then
        if forallb (fun kv => JS.includes stringOperators kv.1) (map_to_list members)
        then inr (COps members)
        else inl (OperatorError path)
      else
        match castString path (BObj members) with
        | inr s => inr (CEq (VStr s))
        | inl e => inl e
        end
  | Some (BStr s) => inr (CEq (VStr s))
  end.

Section Query.
Context `{RegexEngine} {D : Type} `{Document D}.

(** One operator of [{ path: operators }] on the value of the path;
    strings compare by their characters' codes. *)
Definition op_holds (operators : gmap string string) (k a : string)
    (v : option Value) : bool :=
  match v with
  | Some (VStr s) =>
      if String.eqb k "$eq" then String.eqb s a
      else if String.eqb k "$ne" then negb (String.eqb s a)
      else if String.eqb k "$gt" then String.ltb a s
      else if String.eqb k "$gte" then String.leb a s
      else if String.eqb k "$lt" then String.ltb s a
      else if String.eqb k "$lte" then String.leb s a
      else if String.eqb k "$regex"
      then regex_test a (default "" (operators !! "$options")) s
      else String.eqb k "$options"
  | _ => String.eqb k "$ne"
  end.

Definition cond_holds (c : Cond) (v : option Value) : bool :=
  match c, v with
  | CEq w', Some w => bool_decide (w' = w)
  | CEq VNull, None => true
  | CRegex p o, Some (VStr s) => regex_test p o s
  | COps operators, v =>
      bool_decide (map_Forall (fun k a => op_holds operators k a v = true) operators)
  | _, _ => false
  end.

(** A document matches a filter when every term of the filter holds. *)
Definition matches (f : gmap string Cond) (d : D) : bool :=
  bool_decide (map_Forall (fun k c => cond_holds c (field k d) = true) f).

Definition cond_valid (c : Cond) : bool :=
  match c with
  | CRegex p o => regex_valid p o
  | CEq _ => true
  | COps operators =>
      match operators !! "$regex" with
      | Some p => regex_valid p (default "" (operators !! "$options"))
      | None => bool_decide (operators !! "$options" = None)
      end
  end.

Definition filter_valid (f : gmap string Cond) : bool :=
  bool_decide (map_Forall (fun _ c => cond_valid c = true) f).

(** [Model.find(filter)]: the matching documents, in insertion order. *)
Definition find (f : gmap string Cond) (docs : list D) : DbError + list D :=
  if filter_valid f then inr (List.filter (matches f) docs)
  else inl RegexError.

(** [Model.findOne(filter)] *)
Definition findOne (f : gmap string Cond) (docs : list D) : DbError + option D :=
  if filter_valid f then inr (List.find (matches f) docs)
  else inl RegexError.

(** The first matching document replaced by its image under [upd]:
    the new document and the new collection. *)
Fixpoint update_first (p : D -> bool) (upd : D -> D) (docs : list D)
  : option (D * list D) :=
  match docs with
  | [] => None
  | d :: ds =>
      if p d then Some (upd d, upd d :: ds)
      else match update_first p upd ds with
           | Some (d', ds') => Some (d', d :: ds')
           | None => None
           end
  end.

(** The first matching document removed. *)
Fixpoint delete_first (p : D -> bool) (docs : list D) : option (D * list D) :=
  match docs with
  | [] => None
  | d :: ds =>
      if p d then Some (d, ds)
      else match delete_first p ds with
           | Some (d', ds') => Some (d', d :: ds')
           | None => None
           end
  end.

End Query.

End Mongoose.

(** ** The server *)

(** The JSON bodies the handlers send. *)
Inductive Json :=
| JError (error : string)
| JErrorOf (err : DbError)
| JMessage (message : string)
| JLogin (message token : string)
| JSignup (message : string) (user : User)
| JTodo (todo : Todo)
| JTodos (todos : list Todo).

Record Response := mkResponse {
  status : Z;
  json : Json
}.

(** The parts of a request the handlers read.  Header names are in lower
    case, as Express gives them; the query string is an object with
    string values, the JSON body an object of [BodyValue]s. *)
Record Request := mkRequest {
  headers : gmap string string;
  query : gmap string string;
  body : gmap string BodyValue
}.

Inductive Route :=
| GET_todos
| POST_signup
| POST_login
| POST_logout
| POST_todos
| GET_todos_id (id : string)
| PUT_todos_id (id : string)
| DELETE_todos_id (id : string).

(** The mutable state of the process: the blacklist [invalidatedTokens]
    and the two collections; [nextId] is the next ObjectId the database
    hands out. *)
Record State := mkState {
  invalidatedTokens : list string;
  Users : list User;
  Todos : list Todo;
  nextId : ObjectId
}.

Definition secretKey : string := "Hello123".

Definition initial : State :=
  {| invalidatedTokens := []; Users := []; Todos := []; nextId := 0%N |}.

Definition with_tokens (st : State) (ts : list string) : State :=
  {| invalidatedTokens := ts; Users := Users st; Todos := Todos st;
     nextId := nextId st |}.

Definition with_todos (st : State) (ts : list Todo) : State :=
  {| invalidatedTokens := invalidatedTokens st; Users := Users st; Todos := ts;
     nextId := nextId st |}.

(** [authHeader && authHeader.split(" ")[1]] *)
Definition header_token (authHeader : option string) : option string :=
  match authHeader with
  | None => None
  | Some h => if String.eqb h "" then Some "" else JS.split " " h !! 1%nat
  end.

Module UserModel.
Section Ops.
Context `{RegexEngine}.

(** [User.create({ username, password })]: both paths are required and
    [username] carries a unique index. *)
Definition create (username password : option BodyValue) (st : State)
  : DbError + (User * State) :=
  match Mongoose.required "username" username,
        Mongoose.required "password" password with
  | Some u, Some p =>
      if existsb (fun x => String.eqb (u_username x) u) (Users st)
      then inl (DuplicateKeyError "username")
      else
        let newUser := {| u_id := nextId st; u_username := u; u_password := p |} in
        inr (newUser,
             {| invalidatedTokens := invalidatedTokens st;
                Users := Users st ++ [newUser];
                Todos := Todos st;
                nextId := N.succ (nextId st) |})
  | u, p =>
      inl (ValidationError
             ((if u is Some _ then [] else ["username"]) ++
              (if p is Some _ then [] else ["password"])))
  end.

(** [User.findOne({ username, password })]: the two values of the body go
    into the filter as Mongoose casts them. *)
Definition findOne (username password : option BodyValue) (st : State)
  : DbError + option User :=
  match Mongoose.castForQuery "username" username,
        Mongoose.castForQuery "password" password with
  | inr byName, inr byPassword =>
      Mongoose.findOne
        (<["password" := byPassword]> {[ "username" := byName ]})
        (Users st)
  | inl e, _ => inl e
  | _, inl e => inl e
  end.
End Ops.
End UserModel.

Module TodoModel.
Section Ops.
Context `{RegexEngine}.

Definition statusEnum : list string := ["pending"; "completed"].

(** The document a create builds, with the next ObjectId, and the state
    once it is stored. *)
Definition document (st : State) (userId : ObjectId)
    (title description status : string) (now : Z) : Todo :=
  {| t_id := nextId st; t_userId := userId; t_title := title;
     t_description := description; t_status := status;
     t_createdAt := now; t_updatedAt := now |}.

Definition insert (st : State) (todo : Todo) : State :=
  {| invalidatedTokens := invalidatedTokens st;
     Users := Users st;
     Todos := Todos st ++ [todo];
     nextId := N.succ (nextId st) |}.

(** [Todo.create({ userId, title, description, status })]: [title] and
    [description] are required, [status] defaults to "pending" and
    must be in the enum, the two dates default to [Date.now]. *)
Definition validStatus (status : option BodyValue) : option string :=
  match Mongoose.castPath "status" status with
  | inr None => Some "pending"
  | inr (Some s) => if JS.includes statusEnum s then Some s else None
  | inl _ => None
  end.

Definition create (userId : ObjectId) (title description status : option BodyValue)
    (now : Z) (st : State) : DbError + (Todo * State) :=
  match Mongoose.required "title" title,
        Mongoose.required "description" description,
        validStatus status with
  | Some t, Some d, Some s =>
      let todo := document st userId t d s now in
      inr (todo, insert st todo)
  | t, d, s =>
      inl (ValidationError
             ((if t is Some _ then [] else ["title"]) ++
              (if d is Some _ then [] else ["description"]) ++
              (if s is Some _ then [] else ["status"])))
  end.

(** The filter [{ _id: id, userId }] after Mongoose has cast [id]. *)
Definition byIdAndOwner (id userId : ObjectId) : gmap string Cond :=
  <["userId" := CEq (VId userId)]> {[ "_id" := CEq (VId id) ]}.

(** [Todo.findOne({ _id: id, userId })] *)
Definition findOne (id : string) (userId : ObjectId) (st : State)
  : DbError + option Todo :=
  match Mongoose.castObjectId id with
  | None => inl (CastError "_id")
  | Some oid => Mongoose.findOne (byIdAndOwner oid userId) (Todos st)
  end.

(** The update [{ title, description, status, updatedAt }]: a path
    whose value is [undefined] is left as it is; schema validators do
    not run on updates (no [runValidators]). *)
Definition applyUpdate (title description status : option string) (updatedAt : Z)
    (t : Todo) : Todo :=
  {| t_id := t_id t; t_userId := t_userId t;
     t_title := default (t_title t) title;
     t_description := default (t_description t) description;
     t_status := default (t_status t) status;
     t_createdAt := t_createdAt t;
     t_updatedAt := updatedAt |}.

(** The cast of the update [{ title, description, status }]: the three
    values as strings, or the error of the first that does not cast. *)
Definition castUpdate (title description status : option BodyValue)
  : DbError + (option string * option string * option string) :=
  match Mongoose.castPath "title" title,
        Mongoose.castPath "description" description,
        Mongoose.castPath "status" status with
  | inr t, inr d, inr s => inr (t, d, s)
  | inl e, _, _ => inl e
  | _, inl e, _ => inl e
  | _, _, inl e => inl e
  end.

(** [Todo.findOneAndUpdate({ _id: id, userId }, update, { new: true })]:
    the filter and the update are cast before the collection is
    touched. *)
Definition findOneAndUpdate (id : string) (userId : ObjectId)
    (title description status : option BodyValue) (updatedAt : Z) (st : State)
  : DbError + (option Todo * State) :=
  match Mongoose.castObjectId id with
  | None => inl (CastError "_id")
  | Some oid =>
      match castUpdate title description status with
      | inr (t, d, s) =>
          match Mongoose.update_first (Mongoose.matches (byIdAndOwner oid userId))
                  (applyUpdate t d s updatedAt) (Todos st) with
          | Some (todo, ts) => inr (Some todo, with_todos st ts)
          | None => inr (None, st)
          end
      | inl e => inl e
      end
  end.

(** [Todo.findOneAndDelete({ _id: id, userId })] *)
Definition findOneAndDelete (id : string) (userId : ObjectId) (st : State)
  : DbError + (option Todo * State) :=
  match Mongoose.castObjectId id with
  | None => inl (CastError "_id")
  | Some oid =>
      match Mongoose.delete_first (Mongoose.matches (byIdAndOwner oid userId))
              (Todos st) with
      | Some (t, ts) => inr (Some t, with_todos st ts)
      | None => inr (None, st)
      end
  end.
End Ops.
End TodoModel.

Section Server.
Context `{JwtLib} `{RegexEngine}.

(** [authenticateToken(req, res, next)]: the response it sends, or the
    [req.user] it hands to [next]. *)
Definition authenticateToken (now : Z) (st : State) (req : Request)
  : Response + JwtPayload :=
  let authHeader := headers req !! "authorization" in
  let token := header_token authHeader in
  if negb (JS.truthy token) then inl (mkResponse 401 (JError "Unauthorized"))
  else
    let token := default "" token in
    if JS.includes (invalidatedTokens st) token
    then inl (mkResponse 401 (JError "Token has been invalidated"))
    else
      match jwt_verify token secretKey now with
      | inl err => inl (mkResponse 403 (JError "Forbidden"))
      | inr user => inr user
      end.

(** The filter of GET /todos. *)
Definition todos_filter (user : JwtPayload) (req : Request) : gmap string Cond :=
  let title := query req !! "title" in
  let description := query req !! "description" in
  let status := query req !! "status" in
  let filter : gmap string Cond := {[ "userId" := CEq (VId (p_userId user)) ]} in
  let filter :=
    if JS.truthy title
    then <["title" := CRegex (default "" title) "i"]> filter else filter in
  let filter :=
    if JS.truthy description
    then <["description" := CRegex (default "" description) "i"]> filter
    else filter in
  let filter :=
    if JS.truthy status
    then <["status" := CEq (VStr (default "" status))]> filter else filter in
  filter.

(** GET /todos *)
Definition get_todos (user : JwtPayload) (st : State) (req : Request)
  : State * Response :=
  match Mongoose.find (todos_filter user req) (Todos st) with
  | inr todos => (st, mkResponse 200 (JTodos todos))
  | inl err => (st, mkResponse 400 (JErrorOf err))
  end.

(** POST /signup *)
Definition post_signup (st : State) (req : Request) : State * Response :=
  let username := body req !! "username" in
  let password := body req !! "password" in
  match UserModel.create username password st with
  | inr (newUser, st') =>
      (st', mkResponse 201 (JSignup "User created successfully" newUser))
  | inl err => (st, mkResponse 400 (JErrorOf err))
  end.

(** POST /login *)
Definition post_login (now : Z) (st : State) (req : Request) : State * Response :=
  let username := body req !! "username" in
  let password := body req !! "password" in
  match UserModel.findOne username password st with
  | inr None => (st, mkResponse 401 (JError "Invalid credentials"))
  | inr (Some user) =>
      let token := jwt_sign (u_id user) secretKey 3600 now in
      (st, mkResponse 200 (JLogin "Login successful" token))
  | inl err => (st, mkResponse 400 (JErrorOf err))
  end.

(** POST /logout, behind [authenticateToken].  Without the header the
    [split] throws and the error middleware answers; with a header of one
    word the array would receive [undefined], which no later [includes]
    is asked about.  Neither happens behind the middleware. *)
Definition post_logout (st : State) (req : Request) : State * Response :=
  match headers req !! "authorization" with
  | None => (st, mkResponse 500 (JError "Internal server error"))
  | Some h =>
      let st' :=
        match JS.split " " h !! 1%nat with
        | Some token => with_tokens st (JS.push (invalidatedTokens st) token)
        | None => st
        end in
      (st', mkResponse 200 (JMessage "Logout successful"))
  end.

(** POST /todos *)
Definition post_todos (user : JwtPayload) (now : Z) (st : State) (req : Request)
  : State * Response :=
  let title := body req !! "title" in
  let description := body req !! "description" in
  let status := body req !! "status" in
  if negb (JS.truthy_value title) || negb (JS.truthy_value description)
  then (st, mkResponse 400 (JError "Title and description are required"))
  else if JS.truthy_value status
            && negb (JS.includes_value ["pending"; "completed"] status)
  then (st, mkResponse 400 (JError "Invalid status"))
  else
    match TodoModel.create (p_userId user) title description status now st with
    | inr (todo, st') => (st', mkResponse 201 (JTodo todo))
    | inl err => (st, mkResponse 400 (JErrorOf err))
    end.

(** GET /todos/:id *)
Definition get_todo (user : JwtPayload) (st : State) (id : string)
  : State * Response :=
  match TodoModel.findOne id (p_userId user) st with
  | inr None => (st, mkResponse 404 (JError "Todo not found"))
  | inr (Some todo) => (st, mkResponse 200 (JTodo todo))
  | inl err => (st, mkResponse 400 (JErrorOf err))
  end.

(** PUT /todos/:id *)
Definition put_todo (user : JwtPayload) (now : Z) (st : State) (id : string)
    (req : Request) : State * Response :=
  let title := body req !! "title" in
  let description := body req !! "description" in
  let status := body req !! "status" in
  match TodoModel.findOneAndUpdate id (p_userId user)
          title description status now st with
  | inr (None, _) => (st, mkResponse 404 (JError "Todo not found"))
  | inr (Some updatedTodo, st') => (st', mkResponse 200 (JTodo updatedTodo))
  | inl err => (st, mkResponse 400 (JErrorOf err))
  end.

(** DELETE /todos/:id *)
Definition delete_todo (user : JwtPayload) (st : State) (id : string)
  : State * Response :=
  match TodoModel.findOneAndDelete id (p_userId user) st with
  | inr (None, _) => (st, mkResponse 404 (JError "Todo not found"))
  | inr (Some _, st') => (st', mkResponse 200 (JMessage "Todo deleted successfully"))
  | inl err => (st, mkResponse 400 (JErrorOf err))
  end.

(** A route registered with [authenticateToken] in front of it. *)
Definition guarded (now : Z) (st : State) (req : Request)
    (next : JwtPayload -> State * Response) : State * Response :=
  match authenticateToken now st req with
  | inl rejected => (st, rejected)
  | inr user => next user
  end.

(** One request served at time [now]. *)
Definition handle (now : Z) (st : State) (r : Route) (req : Request)
  : State * Response :=
  match r with
  | GET_todos => guarded now st req (fun user => get_todos user st req)
  | POST_signup => post_signup st req
  | POST_login => post_login now st req
  | POST_logout => guarded now st req (fun _ => post_logout st req)
  | POST_todos => guarded now st req (fun user => post_todos user now st req)
  | GET_todos_id id => guarded now st req (fun user => get_todo user st id)
  | PUT_todos_id id => guarded now st req (fun user => put_todo user now st id req)
  | DELETE_todos_id id => guarded now st req (fun user => delete_todo user st id)
  end.

(** A request with the time it is served at. *)
Record Call := mkCall {
  clock : Z;
  route : Route;
  request : Request
}.

Definition step (st : State) (c : Call) : State * Response :=
  handle (clock c) st (route c) (request c).

(** The requests of [cs] served one after the other: the final state and
    the responses in order. *)
Fixpoint run (st : State) (cs : list Call) : State * list Response :=
  match cs with
  | [] => (st, [])
  | c :: cs' =>
      let '(st1, r) := step st c in
      let '(st2, rs) := run st1 cs' in
      (st2, r :: rs)
  end.

End Server.

(** ** Strings: case and containment *)

Module Text.

Definition metachars : list ascii :=
  ["\"; "^"; "$"; "*"; "+"; "?"; "("; ")"; "["; "]"; "{"; "}"; "|"]%char.

Definition is_meta (c : ascii) : bool := existsb (Ascii.eqb c) metachars.

Definition lower (c : ascii) : ascii :=
  let n := N_of_ascii c in
  if ((65 <=? n) && (n <=? 90))%N then ascii_of_N (n + 32) else c.

Fixpoint all_chars (f : ascii -> bool) (s : string) : bool :=
  match s with
  | EmptyString => true
  | String c s' => f c && all_chars f s'
  end.

(** A pattern without any special character. *)
Definition literal (p : string) : bool :=
  all_chars (fun c => negb (is_meta c) && negb (Ascii.eqb c ".")) p.

Fixpoint lowercase (s : string) : string :=
  match s with
  | EmptyString => EmptyString
  | String c s' => String (lower c) (lowercase s')
  end.

(** [p] occurs in [s] when case is ignored. *)
Definition ci_substring (p s : string) : Prop :=
  exists a b, lowercase s = String.append a (String.append (lowercase p) b).

(** The same as a test: [p] read character by character, none special. *)
Fixpoint prefix_ci (p s : string) : bool :=
  match p, s with
  | EmptyString, _ => true
  | String a p', String c s' => Ascii.eqb (lower a) (lower c) && prefix_ci p' s'
  | String _ _, EmptyString => false
  end.

Fixpoint contains_ci (p s : string) : bool :=
  prefix_ci p s ||
  match s with
  | String _ s' => contains_ci p s'
  | EmptyString => false
  end.

End Text.

(** ** What the handlers need of the libraries *)

(** A pattern without special characters compiles and, with option [i],
    is found in a subject exactly when the subject contains it, case
    ignored. *)
Class RegexLaws (R : RegexEngine) : Prop := {
  regex_literal_valid : forall p,
    Text.literal p = true -> regex_valid p "i" = true;
  regex_literal_test : forall p s,
    Text.literal p = true -> regex_test p "i" s = Text.contains_ci p s
}.

(** A signed token verifies under the same key until its [exp], and it is
    one word: not empty and without a space (three base64url segments
    joined by dots). *)
Class JwtLaws (J : JwtLib) : Prop := {
  jwt_verify_sign : forall uid key expiresIn now now',
    0 <= now -> 0 <= expiresIn ->
    now' / 1000 < now / 1000 + expiresIn ->
    jwt_verify (jwt_sign uid key expiresIn now) key now' =
      inr {| p_userId := uid; p_iat := now / 1000;
             p_exp := now / 1000 + expiresIn |};
  jwt_sign_word : forall uid key expiresIn now,
    jwt_sign uid key expiresIn now <> "" /\
    JS.split " " (jwt_sign uid key expiresIn now) =
      [jwt_sign uid key expiresIn now]
}.

(** ** Instances of the interfaces

    Small implementations of the two interfaces, used to run the server on
    concrete requests. *)

(** Tokens in clear: the user id, [iat] and [exp] in unary and the length
    of the key as signature, [uuu.tt.eeee.sss]. *)
Module PlainJwt.

Fixpoint rep (c : ascii) (n : nat) (rest : string) : string :=
  match n with
  | O => rest
  | S n' => String c (rep c n' rest)
  end.

Fixpoint count (c : ascii) (s : string) : nat * string :=
  match s with
  | String c' s' =>
      if Ascii.eqb c' c then let '(n, r) := count c s' in (S n, r)
      else (O, s)
  | EmptyString => (O, s)
  end.

Definition sign (uid : ObjectId) (key : string) (expiresIn now : Z) : string :=
  let iat := now / 1000 in
  rep "u" (N.to_nat uid)
    (String "."
       (rep "t" (Z.to_nat iat)
          (String "."
             (rep "e" (Z.to_nat (iat + expiresIn))
                (String "." (rep "s" (String.length key) ""))))))%string.

Definition malformed : VerifyError + JwtPayload :=
  inl (JsonWebTokenError "jwt malformed").

Definition verify (token key : string) (now : Z) : VerifyError + JwtPayload :=
  let '(u, r1) := count "u" token in
  match r1 with
  | String "." r1' =>
      let '(i, r2) := count "t" r1' in
      match r2 with
      | String "." r2' =>
          let '(e, r3) := count "e" r2' in
          match r3 with
          | String "." r3' =>
              let '(s, r4) := count "s" r3' in
              if negb (String.eqb r4 "") then malformed
              else if negb (Nat.eqb s (String.length key))
              then inl (JsonWebTokenError "invalid signature")
              else if Z.of_nat e <=? now / 1000 then inl TokenExpiredError
              else inr {| p_userId := N.of_nat u; p_iat := Z.of_nat i;
                          p_exp := Z.of_nat e |}
          | _ => malformed
          end
      | _ => malformed
      end
  | _ => malformed
  end.

Definition lib : JwtLib := {| jwt_sign := sign; jwt_verify := verify |}.

End PlainJwt.

(** Patterns made of literal characters and [.], searched anywhere in the
    subject; with option [i] letters match in either case.  A pattern with
    any other metacharacter is refused. *)
Module DotRegex.
Import Text.

Definition newline : ascii := "010"%char.

Definition atom (ci : bool) (a c : ascii) : bool :=
  if Ascii.eqb a "." then negb (Ascii.eqb c newline)
  else if ci then Ascii.eqb (lower a) (lower c)
  else Ascii.eqb a c.

Fixpoint here (ci : bool) (p s : string) : bool :=
  match p, s with
  | EmptyString, _ => true
  | String a p', String c s' => atom ci a c && here ci p' s'
  | String _ _, EmptyString => false
  end.

Fixpoint search (ci : bool) (p s : string) : bool :=
  here ci p s ||
  match s with
  | String _ s' => search ci p s'
  | EmptyString => false
  end.

Definition valid (pattern options : string) : bool :=
  all_chars (fun c => negb (is_meta c)) pattern
  && (String.eqb options "" || String.eqb options "i").

Definition test (pattern options subject : string) : bool :=
  search (String.eqb options "i") pattern subject.

Definition engine : RegexEngine := {| regex_valid := valid; regex_test := test |}.

End DotRegex.


(** ** The authorization header, by its words *)

(** A word of a header: no space in it. *)
Definition word (w : string) : bool :=
  Text.all_chars (fun c => negb (Ascii.eqb c " ")) w.




(** ** Reasons for rejecting a request *)





(** ** Invariant of the collections

    ObjectIds are handed out once, and usernames carry a unique index. *)
Definition wf (st : State) : Prop :=
  NoDup (t_id <$> Todos st)
  /\ Forall (fun t => (t_id t < nextId st)%N) (Todos st)
  /\ NoDup (u_username <$> Users st).

(** Routes registered with [authenticateToken]. *)
Definition is_guarded (r : Route) : bool :=
  match r with
  | POST_signup | POST_login => false
  | _ => true
  end.

(** ** The terms of a search, read off the query string *)

Section Terms.
Context `{RegexEngine}.

(** A [title] or [description] term: no constraint unless the value is a
    non-empty string, which is then a pattern with option [i]. *)
Definition regex_term (v : option string) (subject : string) : bool :=
  if JS.truthy v then regex_test (default "" v) "i" subject else true.

Definition pattern_ok (v : option string) : bool :=
  if JS.truthy v then regex_valid (default "" v) "i" else true.

(** A [status] term: no constraint unless the value is a non-empty string,
    which the document's status must then equal. *)
Definition equal_term (v : option string) (subject : string) : bool :=
  if JS.truthy v then bool_decide (default "" v = subject) else true.

(** The documents a search of [user] with the query of [req] returns. *)
Definition search_hit (user : JwtPayload) (req : Request) (t : Todo) : bool :=
  bool_decide (p_userId user = t_userId t)
  && regex_term (query req !! "title") (t_title t)
  && regex_term (query req !! "description") (t_description t)
  && equal_term (query req !! "status") (t_status t).

End Terms.

(** ** A scenario

    Two users, one todo of bob's, and requests that carry bob's and alice's
    tokens, served with the instances above. *)
Module Scenario.

#[local] Existing Instance PlainJwt.lib.
#[local] Existing Instance DotRegex.engine.

Definition alice : User := {| u_id := 0%N; u_username := "alice"; u_password := "pw1" |}.
Definition bob : User := {| u_id := 1%N; u_username := "bob"; u_password := "pw2" |}.

Definition xylophone : Todo :=
  {| t_id := 2%N; t_userId := 1%N; t_title := "xylophone";
     t_description := "practice scales"; t_status := "pending";
     t_createdAt := 1000; t_updatedAt := 1000 |}.

Definition st0 : State :=
  {| invalidatedTokens := []; Users := [alice; bob]; Todos := [xylophone];
     nextId := 3%N |}.

(** The token a login at time 5000 gives to a user. *)
Definition token_of (u : User) : string := jwt_sign (u_id u) secretKey 3600 5000.

Definition bearer (token : string) : gmap string string :=
  {[ "authorization" := String.append "Bearer " token ]}.

(** A request carrying [u]'s token, with the given query and body. *)
Definition as_user (u : User) (q b : list (string * string)) : Request :=
  {| headers := bearer (token_of u); query := list_to_map q;
     body := BStr <$> list_to_map b |}.

Definition anonymous (b : list (string * string)) : Request :=
  {| headers := ∅; query := ∅; body := BStr <$> list_to_map b |}.


(** The id of [xylophone] as it stands in a URL. *)
Definition xylophone_id : string := "000000000000000000000002".

(** Bob logs out at time 6000. *)
Definition logout_bob : Call :=
  {| clock := 6000; route := POST_logout; request := as_user bob [] [] |}.

Definition st1 : State := (step st0 logout_bob).1.

(** Later requests: alice logs in, then adds a todo. *)
Definition later : list Call :=
  [ {| clock := 6500; route := POST_login;
       request := anonymous [("username", "alice"); ("password", "pw1")] |};
    {| clock := 6600; route := POST_todos;
       request := as_user alice [] [("title", "milk"); ("description", "2 l")] |} ].


End Scenario.

(** ** Predicates on the state *)

(** The todos of one owner. *)
Definition owned_by (o : ObjectId) (t : Todo) : bool :=
  bool_decide (t_userId t = o).

(** The blacklist holds no token twice and never the empty string. *)
Definition blacklist_ok (st : State) : Prop :=
  NoDup (invalidatedTokens st) /\ "" ∉ invalidatedTokens st.

(** The test for the key of [x] in a collection with a unique key. *)
Definition has_key {A B : Type} `{EqDecision B} (key : A -> B) (x y : A) : bool :=
  bool_decide (key y = key x).

(** ** A second scenario: from the empty server *)

Module Opening.

#[local] Existing Instance PlainJwt.lib.
#[local] Existing Instance DotRegex.engine.

Definition credentials (u p : string) : Request :=
  {| headers := ∅; query := ∅;
     body := BStr <$> list_to_map [("username", u); ("password", p)] |}.

(** carol signs up at time 1000. *)
Definition signup_carol : Call :=
  {| clock := 1000; route := POST_signup; request := credentials "carol" "pw3" |}.

(** dave signs up and carol logs in. *)
Definition between : list Call :=
  [ {| clock := 2000; route := POST_signup; request := credentials "dave" "pw4" |};
    {| clock := 3000; route := POST_login; request := credentials "carol" "pw3" |} ].

End Opening.

(** * Properties *)

(** ** Strings and arrays *)

Lemma truthy_Some (s : string) : JS.truthy (Some s) = true <-> s <> "".
Proof.
  unfold JS.truthy. rewrite negb_true_iff.
  destruct (String.eqb_spec s ""); split; congruence.
Qed.

Lemma truthy_Some_inv (v : option string) :
  JS.truthy v = true -> exists s, v = Some s /\ s <> "".
Proof.
  destruct v as [s|]; [|discriminate].
  intros Hs. exists s. split; [done|]. by apply truthy_Some.
Qed.

Lemma includes_true (xs : list string) (x : string) :
  JS.includes xs x = true <-> x ∈ xs.
Proof.
  unfold JS.includes. rewrite existsb_exists, list_elem_of_In. split.
  - intros (y & Hy & Heq). apply String.eqb_eq in Heq. by subst.
  - intros Hx. exists x. split; [done|]. apply String.eqb_refl.
Qed.

Lemma includes_push (xs : list string) (x y : string) :
  JS.includes (JS.push xs x) y = JS.includes xs y || String.eqb y x.
Proof.
  unfold JS.includes, JS.push. rewrite existsb_app. simpl.
  by rewrite orb_false_r.
Qed.

Lemma includes_app (xs ys : list string) (x : string) :
  JS.includes xs x = true -> JS.includes (xs ++ ys) x = true.
Proof. rewrite !includes_true. set_solver. Qed.

(** ** The blacklist only grows *)

Section Blacklist.
Context `{JwtLib} `{RegexEngine}.

Lemma user_create_tokens username password st user st' :
  UserModel.create username password st = inr (user, st') ->
  invalidatedTokens st' = invalidatedTokens st.
Proof.
  unfold UserModel.create. intros Hc.
  repeat case_match; simplify_eq; done.
Qed.

Lemma todo_create_tokens uid title description stat now st todo st' :
  TodoModel.create uid title description stat now st = inr (todo, st') ->
  invalidatedTokens st' = invalidatedTokens st.
Proof.
  unfold TodoModel.create. intros Hc.
  repeat case_match; simplify_eq; done.
Qed.

Lemma todo_update_tokens id uid title description stat now st r st' :
  TodoModel.findOneAndUpdate id uid title description stat now st = inr (r, st') ->
  invalidatedTokens st' = invalidatedTokens st.
Proof.
  unfold TodoModel.findOneAndUpdate. intros Hc.
  repeat case_match; simplify_eq; done.
Qed.

Lemma todo_delete_tokens id uid st r st' :
  TodoModel.findOneAndDelete id uid st = inr (r, st') ->
  invalidatedTokens st' = invalidatedTokens st.
Proof.
  unfold TodoModel.findOneAndDelete. intros Hc.
  repeat case_match; simplify_eq; done.
Qed.

Lemma post_logout_tokens st req :
  exists ts, invalidatedTokens (post_logout st req).1 = invalidatedTokens st ++ ts.
Proof.
  unfold post_logout.
  destruct (headers req !! "authorization") as [h|]; simpl.
  - destruct (JS.split " " h !! 1%nat) as [t|]; simpl.
    + by exists [t].
    + exists []. by rewrite app_nil_r.
  - exists []. by rewrite app_nil_r.
Qed.

Lemma handle_tokens now st r req :
  exists ts, invalidatedTokens (handle now st r req).1 = invalidatedTokens st ++ ts.
Proof.
  assert (Hsame : forall st', invalidatedTokens st' = invalidatedTokens st ->
            exists ts, invalidatedTokens st' = invalidatedTokens st ++ ts).
  { intros st' ->. exists []. by rewrite app_nil_r. }
  destruct r; simpl; unfold guarded;
    try (destruct (authenticateToken now st req) as [rej|user]; simpl;
         [by apply Hsame|]).
  - unfold get_todos. case_match; by apply Hsame.
  - unfold post_signup.
    destruct (UserModel.create _ _ st) as [e|[u st']] eqn:Hc; simpl;
      [by apply Hsame|].
    apply Hsame. by eapply user_create_tokens.
  - unfold post_login. repeat case_match; by apply Hsame.
  - apply post_logout_tokens.
  - unfold post_todos. repeat case_match; simplify_eq; simpl;
      try (by apply Hsame).
    apply Hsame. by eapply todo_create_tokens.
  - unfold get_todo. repeat case_match; by apply Hsame.
  - unfold put_todo. repeat case_match; simplify_eq; simpl;
      try (by apply Hsame).
    apply Hsame. by eapply todo_update_tokens.
  - unfold delete_todo. repeat case_match; simplify_eq; simpl;
      try (by apply Hsame).
    apply Hsame. by eapply todo_delete_tokens.
Qed.

Lemma run_tokens st cs :
  exists ts, invalidatedTokens (run st cs).1 = invalidatedTokens st ++ ts.
Proof.
  revert st. induction cs as [|c cs IH]; intros st; simpl.
  - exists []. by rewrite app_nil_r.
  - unfold step.
    destruct (handle_tokens (clock c) st (route c) (request c)) as [ts1 Hts1].
    destruct (handle (clock c) st (route c) (request c)) as [st1 r1].
    destruct (IH st1) as [ts2 Hts2].
    destruct (run st1 cs) as [st2 rs]. simpl in *.
    exists (ts1 ++ ts2). by rewrite Hts2, Hts1, app_assoc.
Qed.

(** What the middleware answers to a token of the blacklist. *)
Lemma authenticate_revoked now st req token :
  header_token (headers req !! "authorization") = Some token ->
  token <> "" ->
  JS.includes (invalidatedTokens st) token = true ->
  authenticateToken now st req =
    inl (mkResponse 401 (JError "Token has been invalidated")).
Proof.
  intros Htok Hne Hin. unfold authenticateToken. rewrite Htok.
  apply truthy_Some in Hne. rewrite Hne. simpl. by rewrite Hin.
Qed.

(** The token a request passes the middleware with. *)
Lemma authenticate_next now st req user :
  authenticateToken now st req = inr user ->
  exists h token,
    headers req !! "authorization" = Some h /\
    JS.split " " h !! 1%nat = Some token /\ token <> "" /\
    header_token (Some h) = Some token /\
    JS.includes (invalidatedTokens st) token = false /\
    jwt_verify token secretKey now = inr user.
Proof.
  unfold authenticateToken. intros Hauth.
  destruct (JS.truthy (header_token (headers req !! "authorization"))) eqn:Ht;
    [|discriminate].
  apply truthy_Some_inv in Ht as (token & Htok & Hne).
  rewrite Htok in Hauth. simpl in Hauth.
  destruct (JS.includes (invalidatedTokens st) token) eqn:Hin; [discriminate|].
  destruct (jwt_verify token secretKey now) as [e|u] eqn:Hv; [discriminate|].
  destruct (headers req !! "authorization") as [h|]; [|discriminate].
  exists h, token. simpl in Htok.
  destruct (String.eqb_spec h ""); [congruence|].
  unfold header_token. destruct (String.eqb_spec h ""); [done|].
  repeat split; try done. congruence.
Qed.

(** A logout that is answered with success has put its token on the
    blacklist. *)
Lemma logout_success now st req st' resp :
  handle now st POST_logout req = (st', resp) ->
  status resp = 200 ->
  exists token,
    header_token (headers req !! "authorization") = Some token /\
    token <> "" /\
    JS.includes (invalidatedTokens st) token = false /\
    st' = with_tokens st (JS.push (invalidatedTokens st) token) /\
    resp = mkResponse 200 (JMessage "Logout successful").
Proof.
  simpl. unfold guarded. intros Hh Hst.
  destruct (authenticateToken now st req) as [rej|user] eqn:Hauth.
  - simplify_eq. unfold authenticateToken in Hauth.
    repeat case_match; simplify_eq; simpl in Hst; done.
  - apply authenticate_next in Hauth as (h & token & Hh1 & Hs & Hne & Ht & Hni & _).
    unfold post_logout in Hh. rewrite Hh1, Hs in Hh. simplify_eq.
    exists token. by rewrite Hh1.
Qed.

End Blacklist.

(** ** Filters *)

Section Filters.
Context `{RegexEngine} {D : Type} `{Document D}.

Lemma matches_empty (d : D) : Mongoose.matches ∅ d = true.
Proof. apply bool_decide_eq_true. apply map_Forall_empty. Qed.

Lemma matches_insert (f : gmap string Cond) k c (d : D) :
  f !! k = None ->
  Mongoose.matches (<[k:=c]> f) d =
    Mongoose.cond_holds c (field k d) && Mongoose.matches f d.
Proof.
  intros Hk. unfold Mongoose.matches.
  destruct (Mongoose.cond_holds c (field k d)) eqn:Hc; simpl.
  - apply bool_decide_ext. rewrite map_Forall_insert by done.
    split; [by intros [_ ?] | by split].
  - apply bool_decide_eq_false. rewrite map_Forall_insert by done.
    intros [Hc' _]. congruence.
Qed.

Lemma matches_singleton k c (d : D) :
  Mongoose.matches {[ k := c ]} d = Mongoose.cond_holds c (field k d).
Proof.
  rewrite <- insert_empty, matches_insert by apply lookup_empty.
  by rewrite matches_empty, andb_true_r.
Qed.

Lemma filter_valid_empty : Mongoose.filter_valid ∅ = true.
Proof. apply bool_decide_eq_true. apply map_Forall_empty. Qed.

Lemma filter_valid_insert (f : gmap string Cond) k c :
  f !! k = None ->
  Mongoose.filter_valid (<[k:=c]> f) =
    Mongoose.cond_valid c && Mongoose.filter_valid f.
Proof.
  intros Hk. unfold Mongoose.filter_valid.
  destruct (Mongoose.cond_valid c) eqn:Hc; simpl.
  - apply bool_decide_ext. rewrite map_Forall_insert by done.
    split; [by intros [_ ?] | by split].
  - apply bool_decide_eq_false. rewrite map_Forall_insert by done.
    intros [Hc' _]. congruence.
Qed.

Lemma filter_valid_singleton k c :
  Mongoose.filter_valid {[ k := c ]} = Mongoose.cond_valid c.
Proof.
  rewrite <- insert_empty, filter_valid_insert by apply lookup_empty.
  by rewrite filter_valid_empty, andb_true_r.
Qed.

End Filters.

(** ** Revocation *)

(** A token of the blacklist is rejected on every guarded route, now and
    after any further requests. *)
Lemma blacklisted_stays_rejected `{JwtLib} `{RegexEngine} st token cs now req :
  header_token (headers req !! "authorization") = Some token ->
  token <> "" ->
  JS.includes (invalidatedTokens st) token = true ->
  let rejected := mkResponse 401 (JError "Token has been invalidated") in
  authenticateToken now (run st cs).1 req = inl rejected
  /\ forall r, is_guarded r = true ->
       handle now (run st cs).1 r req = ((run st cs).1, rejected).
Proof.
  intros Htok Hne Hin rejected.
  assert (Hrej : authenticateToken now (run st cs).1 req = inl rejected).
  { apply authenticate_revoked with token; [done..|].
    destruct (run_tokens st cs) as [ts ->]. by apply includes_app. }
  split; [done|].
  intros r Hr. destruct r; try discriminate; simpl; unfold guarded;
    by rewrite Hrej.
Qed.

(** C1: once a logout with token [t] has been answered with success, every
    later request that carries [t] is rejected by [authenticateToken] with
    401 "Token has been invalidated", after any further requests [cs], at
    any time [now'] and for any implementation of [jwt.verify]: the
    blacklist is looked up before the token is verified and no route takes
    a token off it.  Every guarded route therefore answers with that
    rejection and leaves the state as it is. *)
Theorem revoked_token_is_rejected {J : JwtLib} {R : RegexEngine}
    now st req st' resp cs now' req' :
  handle now st POST_logout req = (st', resp) ->
  status resp = 200 ->
  header_token (headers req' !! "authorization") =
    header_token (headers req !! "authorization") ->
  authenticateToken now' (run st' cs).1 req' =
    inl (mkResponse 401 (JError "Token has been invalidated"))
  /\ forall r, is_guarded r = true ->
       handle now' (run st' cs).1 r req' =
         ((run st' cs).1, mkResponse 401 (JError "Token has been invalidated")).
Proof.
  intros Hout Hok Hsame.
  destruct (logout_success _ _ _ _ _ Hout Hok) as (t & Ht & Hne & _ & -> & _).
  apply blacklisted_stays_rejected with t; [congruence|done|].
  simpl. rewrite includes_push, String.eqb_refl. apply orb_true_r.
Qed.

(** C9, as the code has it: a second logout with the same token does not
    reach the handler.  The middleware answers it with 401 "Token has been
    invalidated" and the state stays as the first logout left it, so the
    responses to all later requests [cs] and the final state are the same
    after one logout and after two.  On the array itself a second [push] of
    a token changes no answer of [includes]. *)
Theorem logout_twice {J : JwtLib} {R : RegexEngine} st c c' cs :
  route c = POST_logout ->
  route c' = POST_logout ->
  header_token (headers (request c') !! "authorization") =
    header_token (headers (request c) !! "authorization") ->
  status (step st c).2 = 200 ->
  let rejected := mkResponse 401 (JError "Token has been invalidated") in
  step (step st c).1 c' = ((step st c).1, rejected)
  /\ run st (c :: cs) =
       ((run (step st c).1 cs).1, (step st c).2 :: (run (step st c).1 cs).2)
  /\ run st (c :: c' :: cs) =
       ((run (step st c).1 cs).1,
        (step st c).2 :: rejected :: (run (step st c).1 cs).2)
  /\ forall ts t x,
       JS.includes (JS.push (JS.push ts t) t) x = JS.includes (JS.push ts t) x.
Proof.
  intros Hc Hc' Hsame Hok rejected.
  assert (Hstep : step (step st c).1 c' = ((step st c).1, rejected)).
  { unfold step at 1. rewrite Hc'.
    destruct (step st c) as [st1 r1] eqn:Hs. unfold step in Hs. rewrite Hc in Hs.
    simpl in Hok.
    destruct (logout_success _ _ _ _ _ Hs Hok) as (t & Ht & Hne & _ & -> & _).
    apply (blacklisted_stays_rejected _ t []); [congruence|done| |done].
    simpl. rewrite includes_push, String.eqb_refl. apply orb_true_r. }
  split; [done|]. split; [|split].
  - simpl. destruct (step st c) as [st1 r1]. simpl.
    by destruct (run st1 cs).
  - simpl. destruct (step st c) as [st1 r1]. simpl in *. rewrite Hstep.
    by destruct (run st1 cs).
  - intros ts t x. rewrite !includes_push.
    by destruct (JS.includes ts x), (String.eqb x t).
Qed.

(** ** The outward class of a rejection *)

Section Header.
Context `{JwtLib}.

Lemma split_word w rest :
  word w = true ->
  JS.split " " (String.append w (String " " rest)) = w :: JS.split " " rest.
Proof.
  induction w as [|c w IH]; intros Hw; [done|].
  simpl in Hw. apply andb_true_iff in Hw as [Hc Hw].
  apply negb_true_iff in Hc. simpl. by rewrite Hc, IH.
Qed.




Lemma header_token_second_word w rest :
  word w = true ->
  header_token (Some (String.append w (String " " rest))) =
    JS.split " " rest !! 0%nat.
Proof.
  intros Hw. unfold header_token. rewrite split_word by done.
  by destruct w.
Qed.





End Header.



(** ** The filter of a search *)

Section Search.
Context `{RegexEngine}.

Lemma todos_filter_owner user req :
  todos_filter user req !! "userId" = Some (CEq (VId (p_userId user))).
Proof.
  unfold todos_filter.
  destruct (JS.truthy (query req !! "title")),
    (JS.truthy (query req !! "description")),
    (JS.truthy (query req !! "status"));
    by simplify_map_eq.
Qed.

Lemma todos_filter_matches user req t :
  Mongoose.matches (todos_filter user req) t = search_hit user req t.
Proof.
  unfold todos_filter, search_hit, regex_term, equal_term.
  destruct (JS.truthy (query req !! "title")),
    (JS.truthy (query req !! "description")),
    (JS.truthy (query req !! "status"));
    repeat (rewrite matches_insert by by simplify_map_eq);
    rewrite matches_singleton; simpl;
    rewrite ?andb_true_r;
    repeat match goal with
    | |- context [bool_decide (VId ?a = VId ?b)] =>
        rewrite (bool_decide_ext (VId a = VId b) (a = b)) by (split; congruence)
    | |- context [bool_decide (VStr ?a = VStr ?b)] =>
        rewrite (bool_decide_ext (VStr a = VStr b) (a = b)) by (split; congruence)
    end;
    repeat match goal with
    | |- context [bool_decide ?P] => destruct (bool_decide P)
    | |- context [regex_test ?a ?b ?c] => destruct (regex_test a b c)
    end; reflexivity.
Qed.

Lemma todos_filter_valid user req :
  Mongoose.filter_valid (todos_filter user req) =
    pattern_ok (query req !! "title") && pattern_ok (query req !! "description").
Proof.
  unfold todos_filter, pattern_ok.
  destruct (JS.truthy (query req !! "title")),
    (JS.truthy (query req !! "description")),
    (JS.truthy (query req !! "status"));
    repeat (rewrite filter_valid_insert by by simplify_map_eq);
    rewrite filter_valid_singleton; simpl;
    repeat match goal with
    | |- context [regex_valid ?a ?b] => destruct (regex_valid a b)
    end; reflexivity.
Qed.

Lemma search_hit_owner user req t :
  search_hit user req t = true -> t_userId t = p_userId user.
Proof.
  unfold search_hit. rewrite !andb_true_iff.
  intros [[[Ho _] _] _]. by apply bool_decide_eq_true in Ho.
Qed.

End Search.

(** C5: GET /todos, asked by an authenticated user, answers with what
    [Todo.find] returns for a filter whose term [userId] is the id in that
    user's token, whatever the query string holds.  The only other paths
    the filter can constrain are [title], [description] and [status], so
    query parameters named [userId] or [ownerId] change neither the filter
    nor the response, and every document of a response is one of the
    requesting user's. *)
Theorem owner_term_cannot_be_overridden {J : JwtLib} {R : RegexEngine}
    now st req user :
  authenticateToken now st req = inr user ->
  todos_filter user req !! "userId" = Some (CEq (VId (p_userId user)))
  /\ handle now st GET_todos req =
       (st, match Mongoose.find (todos_filter user req) (Todos st) with
            | inr todos => mkResponse 200 (JTodos todos)
            | inl err => mkResponse 400 (JErrorOf err)
            end)
  /\ (forall st' todos,
        handle now st GET_todos req = (st', mkResponse 200 (JTodos todos)) ->
        forall t, t ∈ todos -> t ∈ Todos st /\ t_userId t = p_userId user)
  /\ (forall v w,
        let req' :=
          {| headers := headers req;
             query := <["ownerId" := w]> (<["userId" := v]> (query req));
             body := body req |} in
        todos_filter user req' = todos_filter user req
        /\ handle now st GET_todos req' = handle now st GET_todos req)
  /\ (forall req',
        query req' !! "title" = query req !! "title" ->
        query req' !! "description" = query req !! "description" ->
        query req' !! "status" = query req !! "status" ->
        todos_filter user req' = todos_filter user req)
  /\ (forall k, is_Some (todos_filter user req !! k) ->
        k ∈ ["userId"; "title"; "description"; "status"]).
Proof.
  intros Hauth.
  assert (Hsent : handle now st GET_todos req =
            (st, match Mongoose.find (todos_filter user req) (Todos st) with
                 | inr todos => mkResponse 200 (JTodos todos)
                 | inl err => mkResponse 400 (JErrorOf err)
                 end)).
  { unfold handle, guarded. rewrite Hauth. unfold get_todos.
    by destruct (Mongoose.find (todos_filter user req) (Todos st)). }
  assert (Hsame : forall v w,
            todos_filter user
              {| headers := headers req;
                 query := <["ownerId" := w]> (<["userId" := v]> (query req));
                 body := body req |} = todos_filter user req).
  { intros v w. unfold todos_filter. simpl. by simplify_map_eq. }
  split; [apply todos_filter_owner|].
  split; [done|]. split; [|split; [|split]].
  - intros st' todos. rewrite Hsent. unfold Mongoose.find.
    destruct (Mongoose.filter_valid (todos_filter user req)); [|discriminate].
    intros [= _ <-] t Ht.
    apply list_elem_of_In, filter_In in Ht as [Ht Hm].
    split; [by apply list_elem_of_In|].
    rewrite todos_filter_matches in Hm. by apply search_hit_owner in Hm.
  - intros v w req'. split; [apply Hsame|].
    rewrite Hsent. unfold handle, guarded.
    change (authenticateToken now st req') with (authenticateToken now st req).
    rewrite Hauth. unfold get_todos. subst req'. rewrite Hsame.
    by destruct (Mongoose.find (todos_filter user req) (Todos st)).
  - intros req' Ht Hd Hs. unfold todos_filter. by rewrite Ht, Hd, Hs.
  - intros k [c Hk]. unfold todos_filter in Hk.
    destruct (decide (k = "userId")) as [->|]; [set_solver|].
    destruct (decide (k = "title")) as [->|]; [set_solver|].
    destruct (decide (k = "description")) as [->|]; [set_solver|].
    destruct (decide (k = "status")) as [->|]; [set_solver|].
    repeat case_match; by simplify_map_eq.
Qed.

(** ** Patterns without special characters *)

Section Literal.
Import Text DotRegex.

Lemma prefix_ci_spec p s :
  prefix_ci p s = true <-> exists b, lowercase s = String.append (lowercase p) b.
Proof.
  revert s. induction p as [|a p IH]; intros s; simpl.
  - split; [intros _; by exists (lowercase s)|done].
  - destruct s as [|c s]; simpl.
    + split; [done|]. by intros [b Hb].
    + rewrite andb_true_iff, IH, Ascii.eqb_eq. split.
      * intros [-> [b ->]]. by exists b.
      * intros [b Hb]. injection Hb as -> Hb. eauto.
Qed.

Lemma contains_ci_spec p s : contains_ci p s = true <-> ci_substring p s.
Proof.
  unfold ci_substring. induction s as [|c s IH].
  - simpl. rewrite orb_false_r, prefix_ci_spec. simpl. split.
    + intros [b Hb]. by exists EmptyString, b.
    + intros ([|x a] & b & Hb); [by exists b|done].
  - cbn [contains_ci]. rewrite orb_true_iff, prefix_ci_spec, IH. split.
    + intros [[b Hb]|(a & b & Hb)].
      * by exists EmptyString, b.
      * exists (String (lower c) a), b. simpl. by rewrite Hb.
    + intros ([|x a] & b & Hb).
      * left. by exists b.
      * right. simpl in Hb. injection Hb as _ Hb. eauto.
Qed.

Lemma here_literal p s : literal p = true -> here true p s = prefix_ci p s.
Proof.
  revert s. induction p as [|a p IH]; intros s Hp; [done|].
  simpl in Hp. apply andb_true_iff in Hp as [Ha Hp].
  apply andb_true_iff in Ha as [_ Hdot]. apply negb_true_iff in Hdot.
  destruct s as [|c s]; [done|]. simpl. unfold atom. by rewrite Hdot, IH.
Qed.

Lemma search_literal p s : literal p = true -> search true p s = contains_ci p s.
Proof.
  intros Hp. induction s as [|c s IH]; simpl.
  - by rewrite here_literal.
  - by rewrite here_literal, IH.
Qed.

Lemma dot_regex_laws : RegexLaws engine.
Proof.
  split.
  - intros p Hp. simpl. unfold valid. rewrite andb_true_r.
    induction p as [|a p IH]; [done|]. simpl in *.
    apply andb_true_iff in Hp as [Ha Hp].
    apply andb_true_iff in Ha as [-> _]. by apply IH.
  - intros p s Hp. simpl. unfold test. simpl. by apply search_literal.
Qed.

End Literal.

Section Containment.
Context `{R : RegexEngine} {L : RegexLaws R}.

(** What GET /todos answers, for any terms: the documents of the user for
    which every term holds, or 400 for a pattern that does not compile. *)
Lemma get_todos_result user st req :
  get_todos user st req =
    (if pattern_ok (query req !! "title")
        && pattern_ok (query req !! "description")
     then (st, mkResponse 200
                 (JTodos (List.filter (search_hit user req) (Todos st))))
     else (st, mkResponse 400 (JErrorOf RegexError))).
Proof.
  unfold get_todos, Mongoose.find.
  rewrite todos_filter_valid.
  destruct (pattern_ok (query req !! "title")
            && pattern_ok (query req !! "description")); [|done].
  do 3 f_equal. apply filter_ext. intros t. apply todos_filter_matches.
Qed.

Lemma contains_ci_empty s : Text.contains_ci "" s = true.
Proof. by destruct s. Qed.

Lemma literal_pattern_ok v :
  (forall p, v = Some p -> Text.literal p = true) -> pattern_ok v = true.
Proof.
  intros Hv. unfold pattern_ok. destruct v as [p|]; [|done]. simpl.
  destruct (String.eqb p ""); [done|]. simpl.
  by apply regex_literal_valid, Hv.
Qed.

Lemma literal_regex_term v s :
  (forall p, v = Some p -> Text.literal p = true) ->
  regex_term v s =
    match v with Some p => Text.contains_ci p s | None => true end.
Proof.
  intros Hv. unfold regex_term. destruct v as [p|]; [|done]. simpl.
  destruct (String.eqb_spec p "") as [->|Hne]; simpl.
  - by rewrite contains_ci_empty.
  - by apply regex_literal_test, Hv.
Qed.

Lemma equal_term_cases v s :
  equal_term v s =
    match v with
    | None | Some "" => true
    | Some x => bool_decide (x = s)
    end.
Proof. unfold equal_term. by destruct v as [[|c x]|]. Qed.

End Containment.

(** C8, for terms without special characters: GET /todos, asked by an
    authenticated user, answers 200 with the documents of that user, in
    insertion order, for which every term of the query holds.  A [title] or
    [description] term without regular-expression special characters holds
    when the path's value contains it as a substring, case ignored; a
    [status] term that is not empty holds when the document's status equals
    it; an absent term, and an empty [status], constrains nothing.  The
    patterns are searched by an engine that obeys [RegexLaws]. *)
Theorem search_terms {J : JwtLib} {R : RegexEngine} {L : RegexLaws R}
    now st req user :
  authenticateToken now st req = inr user ->
  (forall p, query req !! "title" = Some p -> Text.literal p = true) ->
  (forall p, query req !! "description" = Some p -> Text.literal p = true) ->
  handle now st GET_todos req =
    (st, mkResponse 200
           (JTodos
              (List.filter
                 (fun t =>
                    bool_decide (p_userId user = t_userId t)
                    && match query req !! "title" with
                       | Some p => Text.contains_ci p (t_title t)
                       | None => true
                       end
                    && match query req !! "description" with
                       | Some p => Text.contains_ci p (t_description t)
                       | None => true
                       end
                    && match query req !! "status" with
                       | None | Some "" => true
                       | Some s => bool_decide (s = t_status t)
                       end)
                 (Todos st))))
  /\ (forall p s, Text.contains_ci p s = true <-> Text.ci_substring p s).
Proof.
  intros Hauth Htitle Hdescription. split; [|apply contains_ci_spec].
  unfold handle, guarded. rewrite Hauth, get_todos_result.
  rewrite !literal_pattern_ok by done. simpl.
  do 3 f_equal. apply filter_ext. intros t. unfold search_hit.
  by rewrite !literal_regex_term, equal_term_cases by done.
Qed.

(** ** Lookups by id and owner *)

Section ById.
Context `{JwtLib} `{RegexEngine}.

Lemma byIdAndOwner_matches id uid (t : Todo) :
  Mongoose.matches (TodoModel.byIdAndOwner id uid) t = true <->
  t_id t = id /\ t_userId t = uid.
Proof.
  unfold TodoModel.byIdAndOwner.
  rewrite matches_insert by by simplify_map_eq.
  rewrite matches_singleton. simpl.
  rewrite andb_true_iff, !bool_decide_eq_true. split.
  - intros [? ?]. split; congruence.
  - intros [-> ->]. done.
Qed.

Lemma find_no_match {A} (p : A -> bool) (l : list A) :
  (forall x, x ∈ l -> p x = false) -> List.find p l = None.
Proof.
  induction l as [|x l IH]; intros Hall; [done|]. simpl.
  rewrite (Hall x) by by left. apply IH. intros y Hy. apply Hall. by right.
Qed.

Lemma update_first_no_match {A} (p : A -> bool) (upd : A -> A) (l : list A) :
  (forall x, x ∈ l -> p x = false) -> Mongoose.update_first p upd l = None.
Proof.
  induction l as [|x l IH]; intros Hall; [done|]. simpl.
  rewrite (Hall x) by by left. rewrite IH; [done|].
  intros y Hy. apply Hall. by right.
Qed.

Lemma delete_first_no_match {A} (p : A -> bool) (l : list A) :
  (forall x, x ∈ l -> p x = false) -> Mongoose.delete_first p l = None.
Proof.
  induction l as [|x l IH]; intros Hall; [done|]. simpl.
  rewrite (Hall x) by by left. rewrite IH; [done|].
  intros y Hy. apply Hall. by right.
Qed.

Lemma byIdAndOwner_valid id uid :
  Mongoose.filter_valid (TodoModel.byIdAndOwner id uid) = true.
Proof.
  unfold TodoModel.byIdAndOwner.
  rewrite filter_valid_insert by by simplify_map_eq.
  by rewrite filter_valid_singleton.
Qed.

(** Two documents of a collection with the same unique key are the same. *)
Lemma unique_key {A B} (key : A -> B) (docs : list A) d1 d2 :
  NoDup (key <$> docs) -> d1 ∈ docs -> d2 ∈ docs -> key d1 = key d2 ->
  d1 = d2.
Proof.
  induction docs as [|d docs IH]; intros Hnd H1 H2 Heq; [by inversion H1|].
  rewrite fmap_cons in Hnd. apply NoDup_cons in Hnd as [Hnotin Hnd].
  apply elem_of_cons in H1 as [->|H1]; apply elem_of_cons in H2 as [->|H2].
  - done.
  - exfalso. apply Hnotin. rewrite Heq. by apply list_elem_of_fmap_2.
  - exfalso. apply Hnotin. rewrite <- Heq. by apply list_elem_of_fmap_2.
  - by apply IH.
Qed.

(** When no document has both the id and the owner, the three routes on
    /todos/:id answer 404 and change nothing; a PUT whose update does not
    cast answers 400 with the cast error instead. *)
Lemma no_match_not_found now user st req id oid :
  Mongoose.castObjectId id = Some oid ->
  (forall t, t ∈ Todos st ->
     Mongoose.matches (TodoModel.byIdAndOwner oid (p_userId user)) t = false) ->
  let notFound := mkResponse 404 (JError "Todo not found") in
  get_todo user st id = (st, notFound)
  /\ put_todo user now st id req =
       (st, match TodoModel.castUpdate (body req !! "title")
                    (body req !! "description") (body req !! "status") with
            | inr _ => notFound
            | inl e => mkResponse 400 (JErrorOf e)
            end)
  /\ delete_todo user st id = (st, notFound).
Proof.
  intros Hcast Hno notFound. repeat split.
  - unfold get_todo, TodoModel.findOne, Mongoose.findOne.
    by rewrite Hcast, byIdAndOwner_valid, find_no_match.
  - unfold put_todo, TodoModel.findOneAndUpdate. rewrite Hcast.
    destruct (TodoModel.castUpdate _ _ _) as [e|[[t d] s]]; [done|].
    by rewrite update_first_no_match.
  - unfold delete_todo, TodoModel.findOneAndDelete.
    by rewrite Hcast, delete_first_no_match.
Qed.

Lemma authenticate_with_todos now st todos req :
  authenticateToken now (with_todos st todos) req = authenticateToken now st req.
Proof. done. Qed.

End ById.

(** C3: a request authenticated as a user other than the owner of a todo,
    on the id of that todo, gets 404 "Todo not found" from GET, PUT and
    DELETE /todos/:id and leaves the collection as it is; the response is
    the one the same request gets when the collection holds no document
    with that id.  (A PUT whose body holds an object that Mongoose cannot
    cast to a string is answered 400 with the cast error before the
    collection is consulted, in both cases alike; a PUT whose body holds
    no object is answered 404.) *)
Theorem other_owner_is_not_found {J : JwtLib} {R : RegexEngine}
    now st req user id todo :
  NoDup (t_id <$> Todos st) ->
  authenticateToken now st req = inr user ->
  todo ∈ Todos st ->
  t_userId todo <> p_userId user ->
  Mongoose.castObjectId id = Some (t_id todo) ->
  let notFound := mkResponse 404 (JError "Todo not found") in
  let putNotFound :=
    match TodoModel.castUpdate (body req !! "title")
            (body req !! "description") (body req !! "status") with
    | inr _ => notFound
    | inl e => mkResponse 400 (JErrorOf e)
    end in
  (handle now st (GET_todos_id id) req = (st, notFound)
   /\ handle now st (PUT_todos_id id) req = (st, putNotFound)
   /\ handle now st (DELETE_todos_id id) req = (st, notFound))
  /\ (forall todos, (forall t, t ∈ todos -> t_id t <> t_id todo) ->
       let st0 := with_todos st todos in
       handle now st0 (GET_todos_id id) req = (st0, notFound)
       /\ handle now st0 (PUT_todos_id id) req = (st0, putNotFound)
       /\ handle now st0 (DELETE_todos_id id) req = (st0, notFound))
  /\ ((forall k members, body req !! k <> Some (BObj members)) ->
      putNotFound = notFound).
Proof.
  intros Hnd Hauth Hin Hother Hcast notFound putNotFound.
  split; [|split].
  - simpl. unfold guarded. rewrite Hauth.
    apply no_match_not_found with (t_id todo); [done|].
    intros t Ht. apply not_true_is_false. intros Hm.
    apply byIdAndOwner_matches in Hm as [Hid Hown].
    assert (t = todo) by by eapply (unique_key t_id). by subst.
  - intros todos Hnone st0. simpl. unfold guarded.
    unfold st0. rewrite authenticate_with_todos, Hauth.
    apply no_match_not_found with (t_id todo); [done|].
    intros t Ht. apply not_true_is_false. intros Hm.
    apply byIdAndOwner_matches in Hm as [Hid _]. by apply (Hnone t).
  - intros Hstrings. unfold putNotFound, TodoModel.castUpdate, Mongoose.castPath.
    pose proof (Hstrings "title") as Ht.
    pose proof (Hstrings "description") as Hd.
    pose proof (Hstrings "status") as Hs.
    destruct (body req !! "title") as [[t|m]|]; [|by destruct (Ht m)|];
      (destruct (body req !! "description") as [[d|m]|]; [|by destruct (Hd m)|]);
      (destruct (body req !! "status") as [[x|m]|]; [|by destruct (Hs m)|]);
      reflexivity.
Qed.

(** ** Login *)

Section Login.
Context `{JwtLib} `{RegexEngine}.

Lemma credentials_matches username password (u : User) :
  Mongoose.matches
    (<["password" := CEq (VStr password)]> {[ "username" := CEq (VStr username) ]})
    u = true <->
  u_username u = username /\ u_password u = password.
Proof.
  rewrite matches_insert by by simplify_map_eq.
  rewrite matches_singleton. simpl.
  rewrite andb_true_iff, !bool_decide_eq_true. split.
  - intros [? ?]. split; congruence.
  - intros [-> ->]. done.
Qed.

Lemma credentials_valid username password :
  Mongoose.filter_valid
    (<["password" := CEq (VStr password)]> {[ "username" := CEq (VStr username) ]})
  = true.
Proof.
  rewrite filter_valid_insert by by simplify_map_eq.
  by rewrite filter_valid_singleton.
Qed.


(** With unique usernames, the credentials of a user find that user. *)
Lemma user_findOne_some st (u : User) :
  NoDup (u_username <$> Users st) -> u ∈ Users st ->
  UserModel.findOne (Some (BStr (u_username u))) (Some (BStr (u_password u))) st =
    inr (Some u).
Proof.
  intros Hnd Hu. unfold UserModel.findOne, Mongoose.findOne. simpl.
  rewrite credentials_valid. do 2 f_equal.
  induction (Users st) as [|x l IH]; [by inversion Hu|].
  rewrite fmap_cons in Hnd. apply NoDup_cons in Hnd as [Hnotin Hnd].
  simpl. apply elem_of_cons in Hu as [<-|Hu].
  - assert (Hm : Mongoose.matches
                   (<["password" := CEq (VStr (u_password u))]>
                      {[ "username" := CEq (VStr (u_username u)) ]}) u = true)
      by by apply credentials_matches.
    by rewrite Hm.
  - destruct (Mongoose.matches _ x) eqn:Hm; [|by apply IH].
    apply credentials_matches in Hm as [Hname _].
    exfalso. apply Hnotin. rewrite Hname. by apply list_elem_of_fmap_2.
Qed.

(** The header [Bearer <token>] carries a token of one word. *)
Lemma header_token_bearer token :
  JS.split " " token = [token] ->
  header_token (Some (String.append "Bearer " token)) = Some token.
Proof.
  intros Hw. simpl.
  change (JS.split " " token !! 0%nat = Some token). by rewrite Hw.
Qed.

End Login.

(** C4: a login with the credentials of a user answers 200 with a token
    signed for that user's id, and a request that carries this token as
    [Bearer <token>] passes [authenticateToken] with [req.user.userId]
    equal to that id, in any state whose blacklist does not hold the token
    and at any time before the token's expiry, one hour after the second it
    was issued in. *)
Theorem login_then_verify {J : JwtLib} {L : JwtLaws J} {R : RegexEngine}
    now st req usr :
  0 <= now ->
  NoDup (u_username <$> Users st) ->
  usr ∈ Users st ->
  body req !! "username" = Some (BStr (u_username usr)) ->
  body req !! "password" = Some (BStr (u_password usr)) ->
  let token := jwt_sign (u_id usr) secretKey 3600 now in
  handle now st POST_login req =
    (st, mkResponse 200 (JLogin "Login successful" token))
  /\ forall now' st' req',
       headers req' !! "authorization" = Some (String.append "Bearer " token) ->
       JS.includes (invalidatedTokens st') token = false ->
       now' / 1000 < now / 1000 + 3600 ->
       exists user,
         authenticateToken now' st' req' = inr user /\ p_userId user = u_id usr.
Proof.
  intros Hnow Hnd Hin Hu Hp token. subst token. split.
  - simpl. unfold post_login. rewrite Hu, Hp.
    by rewrite user_findOne_some.
  - intros now' st' req' Hh Hfresh Hexp.
    destruct (jwt_sign_word (u_id usr) secretKey 3600 now) as [Hne Hword].
    exists {| p_userId := u_id usr; p_iat := now / 1000;
              p_exp := now / 1000 + 3600 |}.
    split; [|done].
    unfold authenticateToken. rewrite Hh.
    rewrite header_token_bearer by done.
    apply truthy_Some in Hne. rewrite Hne. simpl.
    rewrite Hfresh. by rewrite jwt_verify_sign.
Qed.


(** ** The tokens in clear obey the laws *)

Section PlainJwtLaws.
Import PlainJwt.

Lemma count_rep_stop c d n rest :
  Ascii.eqb d c = false ->
  count c (rep c n (String d rest)) = (n, String d rest).
Proof.
  intros Hd. induction n as [|n IH]; simpl.
  - by rewrite Hd.
  - by rewrite Ascii.eqb_refl, IH.
Qed.

Lemma count_rep_end c n : count c (rep c n EmptyString) = (n, EmptyString).
Proof.
  induction n as [|n IH]; simpl; [done|].
  by rewrite Ascii.eqb_refl, IH.
Qed.

Lemma split_rep c n rest :
  Ascii.eqb c " " = false ->
  JS.split " " rest = [rest] ->
  JS.split " " (rep c n rest) = [rep c n rest].
Proof.
  intros Hc Hrest. induction n as [|n IH]; simpl; [done|].
  by rewrite Hc, IH.
Qed.

Lemma split_dot rest :
  JS.split " " rest = [rest] -> JS.split " " (String "." rest) = [String "." rest].
Proof. intros Hrest. simpl. by rewrite Hrest. Qed.

Lemma plain_jwt_laws : JwtLaws lib.
Proof.
  split.
  - intros uid key expiresIn now now' Hnow He Hexp. simpl.
    assert (0 <= now / 1000) by (apply Z.div_pos; lia).
    unfold verify, sign.
    rewrite count_rep_stop by done.
    rewrite count_rep_stop by done.
    rewrite count_rep_stop by done.
    rewrite count_rep_end. simpl.
    rewrite Nat.eqb_refl. simpl.
    rewrite !Z2Nat.id by lia. rewrite N2Nat.id.
    destruct (Z.leb_spec (now / 1000 + expiresIn) (now' / 1000)); [lia|done].
  - intros uid key expiresIn now. simpl. unfold sign. split.
    + by destruct (N.to_nat uid).
    + repeat first [ apply split_rep; [done|] | apply split_dot ]. done.
Qed.

End PlainJwtLaws.

(** ** The invariant of the collections *)

Section Invariant.
Context `{JwtLib} `{RegexEngine}.

Lemma wf_initial : wf initial.
Proof. repeat split; simpl; constructor. Qed.

Lemma update_first_ids {A B} (key : A -> B) (p : A -> bool) (upd : A -> A)
    (docs : list A) d docs' :
  (forall x, key (upd x) = key x) ->
  Mongoose.update_first p upd docs = Some (d, docs') ->
  key <$> docs' = key <$> docs.
Proof.
  intros Hkey. revert d docs'.
  induction docs as [|x docs IH]; intros d docs' Hu; [done|].
  simpl in Hu. destruct (p x).
  - simplify_eq. by rewrite !fmap_cons, Hkey.
  - destruct (Mongoose.update_first p upd docs) as [[d0 docs0]|]; [|done].
    simplify_eq. rewrite !fmap_cons. f_equal. by eapply IH.
Qed.

Lemma delete_first_sublist {A} (p : A -> bool) (docs : list A) d docs' :
  Mongoose.delete_first p docs = Some (d, docs') -> sublist docs' docs.
Proof.
  revert d docs'. induction docs as [|x docs IH]; intros d docs' Hd; [done|].
  simpl in Hd. destruct (p x).
  - simplify_eq. by apply sublist_cons.
  - destruct (Mongoose.delete_first p docs) as [[d0 docs0]|]; [|done].
    simplify_eq. apply sublist_skip. by eapply IH.
Qed.

Lemma user_create_wf username password st user st' :
  wf st -> UserModel.create username password st = inr (user, st') -> wf st'.
Proof.
  intros (Hids & Hlt & Hnames). unfold UserModel.create. intros Hc.
  destruct username as [u|], password as [pw|]; simpl in Hc;
    repeat case_match; simplify_eq.
  repeat split; simpl.
  - done.
  - eapply Forall_impl; [done|]. simpl. intros; lia.
  - rewrite fmap_app. simpl. apply NoDup_app. repeat split.
    + done.
    + intros x Hx Hx'. apply list_elem_of_singleton in Hx'. subst x.
      apply list_elem_of_fmap in Hx as (y & Hy & Hin).
      match goal with
      | Hex : existsb _ _ = false |- _ =>
          apply not_true_iff_false in Hex; apply Hex
      end.
      apply existsb_exists. exists y. split; [by apply list_elem_of_In|].
      apply String.eqb_eq. done.
    + apply NoDup_singleton.
Qed.

Lemma todo_create_wf uid title description stat now st todo st' :
  wf st ->
  TodoModel.create uid title description stat now st = inr (todo, st') ->
  wf st'.
Proof.
  intros (Hids & Hlt & Hnames). unfold TodoModel.create. intros Hc.
  destruct title as [t|], description as [d|]; simpl in Hc;
    repeat case_match; simplify_eq.
  all: repeat split; simpl; try done.
  all: try (rewrite fmap_app; simpl; apply NoDup_app; repeat split;
            [done| |apply NoDup_singleton];
            intros x Hx Hx'; apply list_elem_of_singleton in Hx'; subst x;
            apply list_elem_of_fmap in Hx as (y & Hy & Hin);
            rewrite Forall_forall in Hlt; specialize (Hlt y Hin); lia).
  all: apply Forall_app; split;
         [eapply Forall_impl; [done|]; simpl; intros; lia
         |apply Forall_singleton; simpl; lia].
Qed.

Lemma todo_update_wf id uid title description stat now st r st' :
  wf st ->
  TodoModel.findOneAndUpdate id uid title description stat now st = inr (r, st') ->
  wf st'.
Proof.
  intros (Hids & Hlt & Hnames). unfold TodoModel.findOneAndUpdate. intros Hc.
  destruct (Mongoose.castObjectId id); [|done].
  destruct (TodoModel.castUpdate title description stat) as [e|[[t0 d0] s0]];
    [done|].
  destruct (Mongoose.update_first _ _ _) as [[t ts]|] eqn:Hu; simplify_eq;
    [|done].
  pose proof (update_first_ids t_id _
                (TodoModel.applyUpdate t0 d0 s0 now) _ _ _
                (fun _ => eq_refl) Hu) as Hsame.
  repeat split; simpl; [by rewrite Hsame| |done].
  assert (Hlt' : Forall (fun i => (i < nextId st)%N) (t_id <$> ts)).
  { rewrite Hsame. by apply Forall_fmap. }
  by apply Forall_fmap in Hlt'.
Qed.

Lemma todo_delete_wf id uid st r st' :
  wf st -> TodoModel.findOneAndDelete id uid st = inr (r, st') -> wf st'.
Proof.
  intros (Hids & Hlt & Hnames). unfold TodoModel.findOneAndDelete. intros Hc.
  destruct (Mongoose.castObjectId id); [|done].
  destruct (Mongoose.delete_first _ _) as [[t ts]|] eqn:Hd; simplify_eq;
    [|done].
  apply delete_first_sublist in Hd.
  repeat split; simpl; [| |done].
  - eapply sublist_NoDup; [done|]. by apply fmap_sublist.
  - rewrite Forall_forall in *. intros x Hx. apply Hlt.
    by eapply elem_of_sublist.
Qed.

(** Every request keeps the invariant. *)
Lemma handle_wf now st r req : wf st -> wf (handle now st r req).1.
Proof.
  intros Hwf.
  destruct r; simpl; unfold guarded;
    try (destruct (authenticateToken now st req) as [rej|user]; simpl;
         [done|]).
  - unfold get_todos. by case_match.
  - unfold post_signup.
    destruct (UserModel.create _ _ st) as [e|[u st']] eqn:Hc; simpl; [done|].
    by eapply user_create_wf.
  - unfold post_login. by repeat case_match.
  - unfold post_logout. repeat case_match; simpl; try done.
  - unfold post_todos. repeat case_match; simplify_eq; simpl; try done.
    by eapply todo_create_wf.
  - unfold get_todo. by repeat case_match.
  - unfold put_todo. repeat case_match; simplify_eq; simpl; try done.
    by eapply todo_update_wf.
  - unfold delete_todo. repeat case_match; simplify_eq; simpl; try done.
    by eapply todo_delete_wf.
Qed.

Lemma run_wf st cs : wf st -> wf (run st cs).1.
Proof.
  revert st. induction cs as [|c cs IH]; intros st Hwf; [done|]. simpl.
  pose proof (handle_wf (clock c) st (route c) (request c) Hwf) as Hwf1.
  unfold step. destruct (handle (clock c) st (route c) (request c)) as [st1 r1].
  specialize (IH st1 Hwf1). by destruct (run st1 cs).
Qed.

End Invariant.

(** ** Creating a todo *)

Section Create.
Context `{JwtLib} `{RegexEngine}.

(** What POST /todos does with a title and a description, by the status
    of the body. *)
Lemma post_todos_result user now st req title description :
  body req !! "title" = Some (BStr title) -> title <> "" ->
  body req !! "description" = Some (BStr description) -> description <> "" ->
  let created status :=
    let todo :=
      {| t_id := nextId st; t_userId := p_userId user; t_title := title;
         t_description := description; t_status := status;
         t_createdAt := now; t_updatedAt := now |} in
    ({| invalidatedTokens := invalidatedTokens st; Users := Users st;
        Todos := Todos st ++ [todo]; nextId := N.succ (nextId st) |},
     mkResponse 201 (JTodo todo)) in
  post_todos user now st req =
    match body req !! "status" with
    | None => created "pending"
    | Some (BStr s) =>
        if JS.includes ["pending"; "completed"] s then created s
        else (st, mkResponse 400
                    (if String.eqb s ""
                     then JErrorOf (ValidationError ["status"])
                     else JError "Invalid status"))
    | Some (BObj _) => (st, mkResponse 400 (JError "Invalid status"))
    end.
Proof.
  intros Ht Htne Hd Hdne created. unfold post_todos, TodoModel.create.
  rewrite Ht, Hd. unfold Mongoose.required, TodoModel.validStatus. simpl.
  apply String.eqb_neq in Htne. apply String.eqb_neq in Hdne.
  rewrite Htne, Hdne. simpl.
  destruct (body req !! "status") as [[s|ms]|]; [|done|done]. simpl.
  destruct (String.eqb_spec s "") as [->|Hs]; simpl; [done|].
  by destruct (String.eqb s "pending" || (String.eqb s "completed" || false)).
Qed.

End Create.

(** C10: a POST /todos by an authenticated user, with a title and a
    description that are strings, not empty, and no [status] in the body,
    answers 201 with a todo whose status is "pending", and stores that todo
    at the end of the collection.  With a [status] in the body the default
    plays no part: the todo is created with that status when it is
    "pending" or "completed", and the request is answered 400 and nothing is
    stored otherwise.  An empty title or description is answered 400
    "Title and description are required", whatever the status. *)
Theorem create_without_status {J : JwtLib} {R : RegexEngine}
    now st req user title description :
  authenticateToken now st req = inr user ->
  body req !! "title" = Some (BStr title) ->
  body req !! "description" = Some (BStr description) ->
  let created status :=
    let todo :=
      {| t_id := nextId st; t_userId := p_userId user; t_title := title;
         t_description := description; t_status := status;
         t_createdAt := now; t_updatedAt := now |} in
    ({| invalidatedTokens := invalidatedTokens st; Users := Users st;
        Todos := Todos st ++ [todo]; nextId := N.succ (nextId st) |},
     mkResponse 201 (JTodo todo)) in
  if String.eqb title "" || String.eqb description ""
  then handle now st POST_todos req =
         (st, mkResponse 400 (JError "Title and description are required"))
  else
    match body req !! "status" with
    | None => handle now st POST_todos req = created "pending"
    | Some (BStr s) =>
        if JS.includes ["pending"; "completed"] s
        then handle now st POST_todos req = created s
        else exists e, handle now st POST_todos req = (st, mkResponse 400 e)
    | Some (BObj _) =>
        exists e, handle now st POST_todos req = (st, mkResponse 400 e)
    end.
Proof.
  intros Hauth Ht Hd created. unfold handle, guarded. rewrite Hauth.
  destruct (String.eqb_spec title "") as [->|Htne]; cbn [orb].
  { unfold post_todos. by rewrite Ht. }
  destruct (String.eqb_spec description "") as [->|Hdne]; cbn [orb].
  { unfold post_todos. rewrite Ht, Hd. simpl.
    by destruct (String.eqb title ""). }
  pose proof (post_todos_result user now st req title description
                Ht Htne Hd Hdne) as Hres.
  cbv zeta in Hres. rewrite Hres. subst created.
  destruct (body req !! "status") as [[s|ms]|]; [|by eauto|reflexivity].
  destruct (JS.includes ["pending"; "completed"] s); [reflexivity|]. eauto.
Qed.

(** ** Updating a todo *)

Section Update.
Context `{JwtLib} `{RegexEngine}.

Lemma update_first_match {A} (p : A -> bool) (upd : A -> A) (l : list A) x :
  x ∈ l -> p x = true ->
  exists x0 l', Mongoose.update_first p upd l = Some (upd x0, l') /\ upd x0 ∈ l'.
Proof.
  induction l as [|y l IH]; intros Hx Hp; [by inversion Hx|]. simpl.
  destruct (p y) eqn:Hy.
  - exists y, (upd y :: l). split; [done|]. by left.
  - apply elem_of_cons in Hx as [->|Hx]; [congruence|].
    destruct (IH Hx Hp) as (x0 & l' & -> & Hin).
    exists x0, (y :: l'). split; [done|]. by right.
Qed.

(** PUT /todos/:id stores whatever status string the body holds: the
    update runs no validator and the handler checks nothing. *)
Lemma put_todo_any_status user now st id req s t d todo :
  Mongoose.castObjectId id = Some (t_id todo) ->
  todo ∈ Todos st ->
  t_userId todo = p_userId user ->
  Mongoose.castPath "title" (body req !! "title") = inr t ->
  Mongoose.castPath "description" (body req !! "description") = inr d ->
  body req !! "status" = Some (BStr s) ->
  exists updated st',
    put_todo user now st id req = (st', mkResponse 200 (JTodo updated))
    /\ t_status updated = s /\ updated ∈ Todos st'.
Proof.
  intros Hcast Hin Hown Ht Hd Hs.
  unfold put_todo, TodoModel.findOneAndUpdate, TodoModel.castUpdate.
  rewrite Hcast, Ht, Hd, Hs. simpl.
  destruct (update_first_match
              (Mongoose.matches (TodoModel.byIdAndOwner (t_id todo) (p_userId user)))
              (TodoModel.applyUpdate t d (Some s) now)
              (Todos st) todo Hin) as (t0 & ts & -> & Ht0).
  { by apply byIdAndOwner_matches. }
  eexists _, _. split; [done|]. split; [done|]. exact Ht0.
Qed.

End Update.

(** ** The theorems at the scenario *)

Section AtScenario.
#[local] Existing Instance PlainJwt.lib.
#[local] Existing Instance DotRegex.engine.
Import Scenario.

Lemma revoked_token_is_rejected_witness :
  authenticateToken 7000 (run st1 later).1 (as_user bob [] []) =
    inl (mkResponse 401 (JError "Token has been invalidated"))
  /\ forall r, is_guarded r = true ->
       handle 7000 (run st1 later).1 r (as_user bob [] []) =
         ((run st1 later).1, mkResponse 401 (JError "Token has been invalidated")).
Proof.
  apply (revoked_token_is_rejected 6000 st0 (as_user bob [] []) st1
           (mkResponse 200 (JMessage "Logout successful")) later 7000
           (as_user bob [] [])).
  - vm_compute. reflexivity.
  - reflexivity.
  - reflexivity.
Defined.

(** The claim C9 at bob's logout: the first is answered 200, the second,
    with the same request, 401. *)
Lemma second_logout_is_an_error :
  (step st0 logout_bob).2 = mkResponse 200 (JMessage "Logout successful")
  /\ (step (step st0 logout_bob).1 logout_bob).2 =
       mkResponse 401 (JError "Token has been invalidated").
Proof. split; vm_compute; reflexivity. Qed.

Lemma logout_twice_witness :
  step (step st0 logout_bob).1 logout_bob =
    ((step st0 logout_bob).1,
     mkResponse 401 (JError "Token has been invalidated"))
  /\ run st0 (logout_bob :: later) =
       ((run (step st0 logout_bob).1 later).1,
        (step st0 logout_bob).2 :: (run (step st0 logout_bob).1 later).2)
  /\ run st0 (logout_bob :: logout_bob :: later) =
       ((run (step st0 logout_bob).1 later).1,
        (step st0 logout_bob).2
          :: mkResponse 401 (JError "Token has been invalidated")
          :: (run (step st0 logout_bob).1 later).2)
  /\ forall ts t x,
       JS.includes (JS.push (JS.push ts t) t) x = JS.includes (JS.push ts t) x.
Proof.
  apply (logout_twice st0 logout_bob logout_bob later).
  - reflexivity.
  - reflexivity.
  - reflexivity.
  - vm_compute. reflexivity.
Defined.



Lemma owner_term_cannot_be_overridden_witness :
  handle 6000 st0 GET_todos
    (as_user alice [("userId", "000000000000000000000001")] []) =
    (st0, mkResponse 200 (JTodos []))
  /\ handle 6000 st0 GET_todos
       (as_user bob [("userId", "000000000000000000000000")] []) =
       (st0, mkResponse 200 (JTodos [xylophone])).
Proof.
  destruct (owner_term_cannot_be_overridden 6000 st0
              (as_user alice [("userId", "000000000000000000000001")] [])
              {| p_userId := 0%N; p_iat := 5; p_exp := 3605 |})
    as (_ & Halice & _); [vm_compute; reflexivity|].
  destruct (owner_term_cannot_be_overridden 6000 st0
              (as_user bob [("userId", "000000000000000000000000")] [])
              {| p_userId := 1%N; p_iat := 5; p_exp := 3605 |})
    as (_ & Hbob & _); [vm_compute; reflexivity|].
  split.
  - rewrite Halice. vm_compute. reflexivity.
  - rewrite Hbob. vm_compute. reflexivity.
Defined.

Lemma search_terms_witness :
  handle 6000 st0 GET_todos
    (as_user bob [("title", "X"); ("status", "pending")] []) =
    (st0, mkResponse 200 (JTodos [xylophone]))
  /\ handle 6000 st0 GET_todos
       (as_user bob [("title", "X"); ("status", "completed")] []) =
       (st0, mkResponse 200 (JTodos []))
  /\ Text.ci_substring "X" "xylophone".
Proof.
  destruct (@search_terms _ _ dot_regex_laws 6000 st0
              (as_user bob [("title", "X"); ("status", "pending")] [])
              {| p_userId := 1%N; p_iat := 5; p_exp := 3605 |})
    as [Hpending Hcontains].
  { vm_compute. reflexivity. }
  { intros p Hp. vm_compute in Hp. by injection Hp as <-. }
  { intros p Hp. vm_compute in Hp. discriminate. }
  destruct (@search_terms _ _ dot_regex_laws 6000 st0
              (as_user bob [("title", "X"); ("status", "completed")] [])
              {| p_userId := 1%N; p_iat := 5; p_exp := 3605 |})
    as [Hcompleted _].
  { vm_compute. reflexivity. }
  { intros p Hp. vm_compute in Hp. by injection Hp as <-. }
  { intros p Hp. vm_compute in Hp. discriminate. }
  split; [|split].
  - rewrite Hpending. vm_compute. reflexivity.
  - rewrite Hcompleted. vm_compute. reflexivity.
  - apply Hcontains. vm_compute. reflexivity.
Defined.

(** The title [X] finds bob's "xylophone". *)
Example search_X_finds_xylophone :
  (handle 6000 st0 GET_todos (as_user bob [("title", "X")] [])).2 =
    mkResponse 200 (JTodos [xylophone]).
Proof. vm_compute. reflexivity. Qed.

(** The claim C8 at the title [x.l] and at the empty status: the search for
    [x.l] returns "xylophone", which does not contain [x.l]; the search with
    a [status] that is present and empty returns "xylophone", whose status
    is not the empty string. *)
Lemma search_is_not_containment :
  ((handle 6000 st0 GET_todos (as_user bob [("title", "x.l")] [])).2 =
     mkResponse 200 (JTodos [xylophone])
   /\ Text.contains_ci "x.l" (t_title xylophone) = false)
  /\ ((handle 6000 st0 GET_todos (as_user bob [("status", "")] [])).2 =
        mkResponse 200 (JTodos [xylophone])
      /\ query (as_user bob [("status", "")] []) !! "status" = Some ""
      /\ t_status xylophone <> "").
Proof.
  split; [split; vm_compute; reflexivity|].
  split; [vm_compute; reflexivity|]. split; [vm_compute; reflexivity|].
  discriminate.
Qed.

Lemma other_owner_is_not_found_witness :
  let notFound := mkResponse 404 (JError "Todo not found") in
  (handle 6000 st0 (GET_todos_id xylophone_id) (as_user alice [] []) = (st0, notFound)
   /\ handle 6000 st0 (PUT_todos_id xylophone_id) (as_user alice [] []) = (st0, notFound)
   /\ handle 6000 st0 (DELETE_todos_id xylophone_id) (as_user alice [] []) = (st0, notFound))
  /\ forall todos, (forall t, t ∈ todos -> t_id t <> t_id xylophone) ->
       let st := with_todos st0 todos in
       handle 6000 st (GET_todos_id xylophone_id) (as_user alice [] []) = (st, notFound)
       /\ handle 6000 st (PUT_todos_id xylophone_id) (as_user alice [] []) = (st, notFound)
       /\ handle 6000 st (DELETE_todos_id xylophone_id) (as_user alice [] []) = (st, notFound).
Proof.
  destruct (other_owner_is_not_found 6000 st0 (as_user alice [] [])
              {| p_userId := 0%N; p_iat := 5; p_exp := 3605 |}
              xylophone_id xylophone) as (Hthere & Habsent & _).
  - simpl. apply NoDup_singleton.
  - vm_compute. reflexivity.
  - simpl. by left.
  - simpl. discriminate.
  - vm_compute. reflexivity.
  - split; [exact Hthere|exact Habsent].
Defined.

Lemma login_then_verify_witness :
  let req := anonymous [("username", "bob"); ("password", "pw2")] in
  handle 5000 st0 POST_login req =
    (st0, mkResponse 200 (JLogin "Login successful" (token_of bob)))
  /\ forall now' st' req',
       headers req' !! "authorization" =
         Some (String.append "Bearer " (token_of bob)) ->
       JS.includes (invalidatedTokens st') (token_of bob) = false ->
       now' / 1000 < 5000 / 1000 + 3600 ->
       exists user,
         authenticateToken now' st' req' = inr user /\ p_userId user = u_id bob.
Proof.
  apply (login_then_verify (L := plain_jwt_laws) 5000 st0
           (anonymous [("username", "bob"); ("password", "pw2")]) bob).
  - lia.
  - simpl. apply NoDup_cons. split; [|apply NoDup_singleton].
    intros Hx. apply list_elem_of_singleton in Hx. discriminate.
  - simpl. apply elem_of_cons. right. apply elem_of_cons. by left.
  - reflexivity.
  - reflexivity.
Defined.



Lemma create_without_status_witness :
  let milk :=
    {| t_id := 3%N; t_userId := 0%N; t_title := "milk";
       t_description := "2 l"; t_status := "pending";
       t_createdAt := 6600; t_updatedAt := 6600 |} in
  handle 6600 st0 POST_todos
    (as_user alice [] [("title", "milk"); ("description", "2 l")]) =
    ({| invalidatedTokens := []; Users := [alice; bob];
        Todos := [xylophone; milk]; nextId := 4%N |},
     mkResponse 201 (JTodo milk)).
Proof.
  apply (create_without_status 6600 st0
           (as_user alice [] [("title", "milk"); ("description", "2 l")])
           {| p_userId := 0%N; p_iat := 5; p_exp := 3605 |} "milk" "2 l").
  - vm_compute. reflexivity.
  - reflexivity.
  - reflexivity.
Defined.

(** C6 at an update: bob's PUT with the status "archived", which is not in
    the enum of the schema, is answered 200 and the stored todo now has
    that status; the same body sent to POST /todos is answered 400
    "Invalid status" and stores nothing. *)
Theorem update_accepts_invalid_status :
  let req :=
    as_user bob []
      [("title", "xylophone"); ("description", "practice scales");
       ("status", "archived")] in
  let updated :=
    {| t_id := 2%N; t_userId := 1%N; t_title := "xylophone";
       t_description := "practice scales"; t_status := "archived";
       t_createdAt := 1000; t_updatedAt := 6000 |} in
  JS.includes TodoModel.statusEnum "archived" = false
  /\ handle 6000 st0 (PUT_todos_id xylophone_id) req =
       (with_todos st0 [updated], mkResponse 200 (JTodo updated))
  /\ handle 6000 st0 POST_todos req =
       (st0, mkResponse 400 (JError "Invalid status")).
Proof. repeat split; vm_compute; reflexivity. Qed.

End AtScenario.

(** * Further properties of the routes *)

(** ** What a request can change *)

Section Changes.
Context `{JwtLib} `{RegexEngine}.

Lemma user_create_users username password st user st' :
  UserModel.create username password st = inr (user, st') ->
  Users st' = Users st ++ [user].
Proof.
  unfold UserModel.create. intros Hc.
  repeat case_match; simplify_eq; done.
Qed.

Lemma todo_create_users uid title description stat now st todo st' :
  TodoModel.create uid title description stat now st = inr (todo, st') ->
  Users st' = Users st.
Proof.
  unfold TodoModel.create. intros Hc.
  repeat case_match; simplify_eq; done.
Qed.

Lemma todo_update_users id uid title description stat now st r st' :
  TodoModel.findOneAndUpdate id uid title description stat now st = inr (r, st') ->
  Users st' = Users st.
Proof.
  unfold TodoModel.findOneAndUpdate. intros Hc.
  repeat case_match; simplify_eq; done.
Qed.

Lemma todo_delete_users id uid st r st' :
  TodoModel.findOneAndDelete id uid st = inr (r, st') ->
  Users st' = Users st.
Proof.
  unfold TodoModel.findOneAndDelete. intros Hc.
  repeat case_match; simplify_eq; done.
Qed.

Lemma handle_users now st r req :
  Users st `prefix_of` Users (handle now st r req).1.
Proof.
  assert (Hsame : forall st', Users st' = Users st ->
            Users st `prefix_of` Users st') by (by intros st' ->).
  destruct r; simpl; unfold guarded;
    try (destruct (authenticateToken now st req) as [rej|user]; simpl;
         [done|]).
  - unfold get_todos. by case_match.
  - unfold post_signup.
    destruct (UserModel.create _ _ st) as [e|[u st']] eqn:Hc; simpl; [done|].
    rewrite (user_create_users _ _ _ _ _ Hc). by apply prefix_app_r.
  - unfold post_login. by repeat case_match.
  - unfold post_logout. by repeat case_match.
  - unfold post_todos. repeat case_match; simplify_eq; simpl; try done.
    apply Hsame. by eapply todo_create_users.
  - unfold get_todo. by repeat case_match.
  - unfold put_todo. repeat case_match; simplify_eq; simpl; try done.
    apply Hsame. by eapply todo_update_users.
  - unfold delete_todo. repeat case_match; simplify_eq; simpl; try done.
    apply Hsame. by eapply todo_delete_users.
Qed.

Lemma run_users st cs : Users st `prefix_of` Users (run st cs).1.
Proof.
  revert st. induction cs as [|c cs IH]; intros st; [done|]. simpl.
  pose proof (handle_users (clock c) st (route c) (request c)) as H1.
  unfold step. destruct (handle (clock c) st (route c) (request c)) as [st1 r1].
  specialize (IH st1). destruct (run st1 cs). simpl in *.
  by etrans.
Qed.

(** The blacklist after a request: as before, or with the token of a
    logout that passed the middleware pushed on it. *)
Lemma handle_tokens_cases now st r req :
  invalidatedTokens (handle now st r req).1 = invalidatedTokens st
  \/ exists token,
       r = POST_logout /\ token <> "" /\
       JS.includes (invalidatedTokens st) token = false /\
       invalidatedTokens (handle now st r req).1 =
         JS.push (invalidatedTokens st) token.
Proof.
  destruct r; simpl; unfold guarded;
    try (destruct (authenticateToken now st req) as [rej|user] eqn:Hauth;
         simpl; [by left|]).
  - unfold get_todos. left. by case_match.
  - unfold post_signup.
    destruct (UserModel.create _ _ st) as [e|[u st']] eqn:Hc; simpl;
      [by left|].
    left. by eapply user_create_tokens.
  - unfold post_login. left. by repeat case_match.
  - apply authenticate_next in Hauth
      as (h & token & Hh & Hs & Hne & _ & Hni & _).
    right. exists token. unfold post_logout. by rewrite Hh, Hs.
  - unfold post_todos. left. repeat case_match; simplify_eq; simpl; try done.
    by eapply todo_create_tokens.
  - unfold get_todo. left. by repeat case_match.
  - unfold put_todo. left. repeat case_match; simplify_eq; simpl; try done.
    by eapply todo_update_tokens.
  - unfold delete_todo. left. repeat case_match; simplify_eq; simpl; try done.
    by eapply todo_delete_tokens.
Qed.

Lemma handle_blacklist_ok now st r req :
  blacklist_ok st -> blacklist_ok (handle now st r req).1.
Proof.
  intros [Hnd Hne].
  destruct (handle_tokens_cases now st r req)
    as [Hsame|(token & _ & Htok & Hni & Hpush)]; unfold blacklist_ok.
  - by rewrite Hsame.
  - rewrite Hpush. unfold JS.push.
    assert (token ∉ invalidatedTokens st).
    { intros Hin. apply includes_true in Hin. congruence. }
    split.
    + apply NoDup_app. repeat split; [done| |apply NoDup_singleton].
      intros x Hx Hx'. apply list_elem_of_singleton in Hx'. by subst.
    + rewrite elem_of_app, list_elem_of_singleton. intros [?|?]; [done|].
      by apply Htok.
Qed.

End Changes.

(** X4: no route removes or rewrites a user or takes a token off the
    blacklist: along any run both [Users] and [invalidatedTokens] are only
    appended to. *)
Theorem users_and_blacklist_only_grow {J : JwtLib} {R : RegexEngine} st cs :
  Users st `prefix_of` Users (run st cs).1
  /\ invalidatedTokens st `prefix_of` invalidatedTokens (run st cs).1.
Proof. split; [apply run_users|apply run_tokens]. Qed.

(** X5: in every state the server reaches from its start no two users
    share a username: [userSchema] gives [username] a unique index, and a
    signup with a username in use stores nothing. *)
Theorem reachable_usernames_unique {J : JwtLib} {R : RegexEngine} cs :
  NoDup (u_username <$> Users (run initial cs).1).
Proof. apply (run_wf initial cs wf_initial). Qed.

(** X6: in every state the server reaches from its start the blacklist
    holds each token once and never the empty string: a logout only runs
    behind the middleware, which rejects a missing token and a token that
    is on the blacklist already. *)
Theorem reachable_blacklist_ok {J : JwtLib} {R : RegexEngine} cs :
  blacklist_ok (run initial cs).1.
Proof.
  assert (Hrun : forall st, blacklist_ok st -> blacklist_ok (run st cs).1).
  { induction cs as [|c cs IH]; intros st Hok; [done|]. simpl.
    pose proof (handle_blacklist_ok (clock c) st (route c) (request c) Hok) as H1.
    unfold step.
    destruct (handle (clock c) st (route c) (request c)) as [st1 r1].
    specialize (IH st1 H1). by destruct (run st1 cs). }
  apply Hrun. split; simpl; [constructor|]. by intros Hin; inversion Hin.
Qed.

(** X7: a request that is answered with an error status (400 and above)
    has changed nothing, on every route. *)
Theorem errors_change_nothing {J : JwtLib} {R : RegexEngine} now st r req st' resp :
  handle now st r req = (st', resp) ->
  400 <= status resp ->
  st' = st.
Proof.
  intros Hh Hst.
  assert (Hguard : forall next,
            (forall user, next user = (st', resp) -> st' = st) ->
            guarded now st req next = (st', resp) -> st' = st).
  { intros next Hnext. unfold guarded.
    destruct (authenticateToken now st req) as [rej|user]; [|by apply Hnext].
    intros [= <- _]. done. }
  destruct r; cbn [handle] in Hh.
  - revert Hh. apply Hguard. intros user. unfold get_todos.
    destruct (Mongoose.find _ _); by intros [= <- _].
  - unfold post_signup in Hh.
    destruct (UserModel.create _ _ st) as [e|[u st1]].
    + by injection Hh as <- _.
    + injection Hh as <- <-. simpl in Hst. lia.
  - unfold post_login in Hh.
    destruct (UserModel.findOne _ _ st) as [e|[u|]]; by injection Hh as <- _.
  - revert Hh. apply Hguard. intros _. unfold post_logout.
    destruct (headers req !! "authorization"); [|by intros [= <- _]].
    intros [= <- <-]. simpl in Hst. lia.
  - revert Hh. apply Hguard. intros user. unfold post_todos.
    destruct (_ || _); [by intros [= <- _]|].
    destruct (_ && _); [by intros [= <- _]|].
    destruct (TodoModel.create _ _ _ _ _ st) as [e|[t st1]].
    + by intros [= <- _].
    + intros [= <- <-]. simpl in Hst. lia.
  - revert Hh. apply Hguard. intros user. unfold get_todo.
    destruct (TodoModel.findOne _ _ st) as [e|[t|]]; by intros [= <- _].
  - revert Hh. apply Hguard. intros user. unfold put_todo.
    destruct (TodoModel.findOneAndUpdate _ _ _ _ _ _ st) as [e|[[t|] st1]].
    + by intros [= <- _].
    + intros [= <- <-]. simpl in Hst. lia.
    + by intros [= <- _].
  - revert Hh. apply Hguard. intros user. unfold delete_todo.
    destruct (TodoModel.findOneAndDelete _ _ st) as [e|[[t|] st1]].
    + by intros [= <- _].
    + intros [= <- <-]. simpl in Hst. lia.
    + by intros [= <- _].
Qed.

(** ** Collections with a unique key *)

Section UniqueKey.
Context {A B : Type} `{EqDecision B} (key : A -> B).

Lemma find_ext_in (p q : A -> bool) (l : list A) :
  (forall y, y ∈ l -> p y = q y) -> List.find p l = List.find q l.
Proof.
  induction l as [|y l IH]; intros Hpq; [done|]. simpl.
  rewrite (Hpq y) by by left. rewrite IH; [done|].
  intros z Hz. apply Hpq. by right.
Qed.

Lemma update_first_ext_in (p q : A -> bool) (upd : A -> A) (l : list A) :
  (forall y, y ∈ l -> p y = q y) ->
  Mongoose.update_first p upd l = Mongoose.update_first q upd l.
Proof.
  induction l as [|y l IH]; intros Hpq; [done|]. simpl.
  rewrite (Hpq y) by by left. rewrite IH; [done|].
  intros z Hz. apply Hpq. by right.
Qed.

Lemma delete_first_ext_in (p q : A -> bool) (l : list A) :
  (forall y, y ∈ l -> p y = q y) ->
  Mongoose.delete_first p l = Mongoose.delete_first q l.
Proof.
  induction l as [|y l IH]; intros Hpq; [done|]. simpl.
  rewrite (Hpq y) by by left. rewrite IH; [done|].
  intros z Hz. apply Hpq. by right.
Qed.

Lemma has_key_refl x : has_key key x x = true.
Proof. by apply bool_decide_eq_true_2. Qed.

Lemma has_key_absent x (l : list A) :
  key x ∉ key <$> l -> forall y, y ∈ l -> has_key key x y = false.
Proof.
  intros Hnotin y Hy. apply bool_decide_eq_false. intros Heq.
  apply Hnotin. rewrite <- Heq. by apply list_elem_of_fmap_2.
Qed.

Lemma has_key_other x y (l : list A) :
  key y ∉ key <$> l -> x ∈ l -> has_key key x y = false.
Proof.
  intros Hnotin Hx. apply bool_decide_eq_false. intros Heq.
  apply Hnotin. rewrite Heq. by apply list_elem_of_fmap_2.
Qed.

Lemma filter_all {C} (p : C -> bool) (l : list C) :
  (forall y, y ∈ l -> p y = true) -> List.filter p l = l.
Proof.
  induction l as [|y l IH]; intros Hall; [done|]. simpl.
  rewrite (Hall y) by by left. f_equal. apply IH.
  intros z Hz. apply Hall. by right.
Qed.

Lemma map_id_in {C} (f : C -> C) (l : list C) :
  (forall y, y ∈ l -> f y = y) -> f <$> l = l.
Proof.
  induction l as [|y l IH]; intros Hall; [done|]. rewrite fmap_cons.
  rewrite (Hall y) by by left. f_equal. apply IH.
  intros z Hz. apply Hall. by right.
Qed.

Lemma find_key x (l : list A) :
  NoDup (key <$> l) -> x ∈ l -> List.find (has_key key x) l = Some x.
Proof.
  induction l as [|y l IH]; intros Hnd Hx; [by inversion Hx|].
  rewrite fmap_cons in Hnd. apply NoDup_cons in Hnd as [Hnotin Hnd].
  simpl. apply elem_of_cons in Hx as [->|Hx].
  - by rewrite has_key_refl.
  - rewrite (has_key_other x y l) by done. by apply IH.
Qed.

Lemma delete_first_key x (l : list A) :
  NoDup (key <$> l) -> x ∈ l ->
  Mongoose.delete_first (has_key key x) l =
    Some (x, List.filter (fun y => negb (has_key key x y)) l).
Proof.
  induction l as [|y l IH]; intros Hnd Hx; [by inversion Hx|].
  rewrite fmap_cons in Hnd. apply NoDup_cons in Hnd as [Hnotin Hnd].
  simpl. apply elem_of_cons in Hx as [->|Hx].
  - rewrite has_key_refl. simpl.
    do 2 f_equal. symmetry. apply filter_all. intros z Hz.
    by rewrite (has_key_absent y l Hnotin z Hz).
  - rewrite (has_key_other x y l) by done. simpl. by rewrite IH.
Qed.

Lemma update_first_key (upd : A -> A) x (l : list A) :
  NoDup (key <$> l) -> x ∈ l ->
  Mongoose.update_first (has_key key x) upd l =
    Some (upd x, (fun y => if has_key key x y then upd y else y) <$> l).
Proof.
  induction l as [|y l IH]; intros Hnd Hx; [by inversion Hx|].
  rewrite fmap_cons in Hnd. apply NoDup_cons in Hnd as [Hnotin Hnd].
  rewrite fmap_cons. simpl. apply elem_of_cons in Hx as [->|Hx].
  - rewrite has_key_refl.
    do 3 f_equal. symmetry. apply map_id_in. intros z Hz.
    by rewrite (has_key_absent y l Hnotin z Hz).
  - rewrite (has_key_other x y l) by done. by rewrite IH.
Qed.

End UniqueKey.

(** ** The owner's requests on a todo *)

Section Owner.
Context `{JwtLib} `{RegexEngine}.

(** On a collection with unique ids that holds [todo], the filter by
    [todo]'s id and owner is the test for [todo]'s id. *)
Lemma owner_filter_is_key (todos : list Todo) todo :
  NoDup (t_id <$> todos) -> todo ∈ todos ->
  forall y, y ∈ todos ->
    Mongoose.matches (TodoModel.byIdAndOwner (t_id todo) (t_userId todo)) y =
      has_key t_id todo y.
Proof.
  intros Hnd Hin y Hy. unfold has_key.
  destruct (Mongoose.matches _ y) eqn:Hm.
  - apply byIdAndOwner_matches in Hm as [Hid _].
    by rewrite bool_decide_eq_true_2.
  - symmetry. apply bool_decide_eq_false. intros Hid.
    assert (y = todo) as -> by (eapply (unique_key t_id); eassumption).
    rewrite (proj2 (byIdAndOwner_matches (t_id todo) (t_userId todo) todo))
      in Hm; [discriminate|]. split; reflexivity.
Qed.

Lemma owner_get_result user st id todo :
  NoDup (t_id <$> Todos st) -> todo ∈ Todos st ->
  t_userId todo = p_userId user ->
  Mongoose.castObjectId id = Some (t_id todo) ->
  get_todo user st id = (st, mkResponse 200 (JTodo todo)).
Proof.
  intros Hnd Hin Hown Hcast.
  unfold get_todo, TodoModel.findOne, Mongoose.findOne.
  rewrite Hcast, byIdAndOwner_valid, <- Hown.
  rewrite (find_ext_in _ (has_key t_id todo))
    by by apply owner_filter_is_key.
  by rewrite find_key.
Qed.

Lemma owner_delete_result user st id todo :
  NoDup (t_id <$> Todos st) -> todo ∈ Todos st ->
  t_userId todo = p_userId user ->
  Mongoose.castObjectId id = Some (t_id todo) ->
  delete_todo user st id =
    (with_todos st (List.filter (fun t => negb (has_key t_id todo t)) (Todos st)),
     mkResponse 200 (JMessage "Todo deleted successfully")).
Proof.
  intros Hnd Hin Hown Hcast.
  unfold delete_todo, TodoModel.findOneAndDelete.
  rewrite Hcast, <- Hown.
  rewrite (delete_first_ext_in _ (has_key t_id todo))
    by by apply owner_filter_is_key.
  by rewrite delete_first_key.
Qed.

Lemma owner_put_result user now st id req todo title description stat :
  NoDup (t_id <$> Todos st) -> todo ∈ Todos st ->
  t_userId todo = p_userId user ->
  Mongoose.castObjectId id = Some (t_id todo) ->
  TodoModel.castUpdate (body req !! "title") (body req !! "description")
    (body req !! "status") = inr (title, description, stat) ->
  let upd := TodoModel.applyUpdate title description stat now in
  put_todo user now st id req =
    (with_todos st
       ((fun t => if has_key t_id todo t then upd t else t) <$> Todos st),
     mkResponse 200 (JTodo (upd todo))).
Proof.
  intros Hnd Hin Hown Hcast Hupd upd.
  unfold put_todo, TodoModel.findOneAndUpdate.
  rewrite Hcast, Hupd, <- Hown.
  rewrite (update_first_ext_in _ (has_key t_id todo))
    by by apply owner_filter_is_key.
  by rewrite update_first_key.
Qed.

(** Requests of a user leave the todos of the others as they are. *)
Lemma update_first_filter {A} (p q : A -> bool) (upd : A -> A) (l : list A) d l' :
  (forall x, p x = true -> q x = false /\ q (upd x) = false) ->
  Mongoose.update_first p upd l = Some (d, l') ->
  List.filter q l' = List.filter q l.
Proof.
  intros Hpq. revert d l'.
  induction l as [|x l IH]; intros d l' Hu; [done|]. simpl in Hu.
  destruct (p x) eqn:Hp.
  - simplify_eq. simpl. destruct (Hpq x Hp) as [-> ->]. done.
  - destruct (Mongoose.update_first p upd l) as [[d0 l0]|]; [|done].
    simplify_eq. simpl. by rewrite (IH _ _ eq_refl).
Qed.

Lemma delete_first_filter {A} (p q : A -> bool) (l : list A) d l' :
  (forall x, p x = true -> q x = false) ->
  Mongoose.delete_first p l = Some (d, l') ->
  List.filter q l' = List.filter q l.
Proof.
  intros Hpq. revert d l'.
  induction l as [|x l IH]; intros d l' Hd; [done|]. simpl in Hd.
  destruct (p x) eqn:Hp.
  - injection Hd as <- <-. simpl. by rewrite (Hpq x Hp).
  - destruct (Mongoose.delete_first p l) as [[d0 l0]|]; [|done].
    simplify_eq. simpl. by rewrite (IH _ _ eq_refl).
Qed.

Lemma user_create_todos username password st user st' :
  UserModel.create username password st = inr (user, st') ->
  Todos st' = Todos st.
Proof.
  unfold UserModel.create. intros Hc.
  repeat case_match; simplify_eq; done.
Qed.

Lemma todo_create_todos uid title description stat now st todo st' :
  TodoModel.create uid title description stat now st = inr (todo, st') ->
  Todos st' = Todos st ++ [todo] /\ t_userId todo = uid.
Proof.
  unfold TodoModel.create. intros Hc.
  repeat case_match; simplify_eq; done.
Qed.

Lemma not_owned uid o t :
  uid <> o -> t_userId t = uid -> owned_by o t = false.
Proof. intros Hne Ht. apply bool_decide_eq_false. congruence. Qed.

Lemma filter_filter_implied {A} (p q : A -> bool) (l : list A) :
  (forall x, p x = true -> q x = true) ->
  List.filter p l = List.filter p (List.filter q l).
Proof.
  intros Hpq. induction l as [|x l IH]; [done|]. simpl.
  destruct (p x) eqn:Hp.
  - rewrite (Hpq x Hp). simpl. by rewrite Hp, IH.
  - destruct (q x); simpl; by rewrite ?Hp, IH.
Qed.

Lemma find_filter_implied {A} (p q : A -> bool) (l : list A) :
  (forall x, p x = true -> q x = true) ->
  List.find p l = List.find p (List.filter q l).
Proof.
  intros Hpq. induction l as [|x l IH]; [done|]. simpl.
  destruct (p x) eqn:Hp.
  - rewrite (Hpq x Hp). simpl. by rewrite Hp.
  - destruct (q x); simpl; by rewrite ?Hp, IH.
Qed.

End Owner.

(** X9: the owner of a todo reads it back: GET /todos/:id with the id of
    a stored todo, authenticated as its owner, answers 200 with that todo
    and changes nothing. *)
Theorem owner_reads_todo {J : JwtLib} {R : RegexEngine} now st req user id todo :
  NoDup (t_id <$> Todos st) ->
  authenticateToken now st req = inr user ->
  todo ∈ Todos st ->
  t_userId todo = p_userId user ->
  Mongoose.castObjectId id = Some (t_id todo) ->
  handle now st (GET_todos_id id) req = (st, mkResponse 200 (JTodo todo)).
Proof.
  intros Hnd Hauth Hin Hown Hcast. simpl. unfold guarded. rewrite Hauth.
  by apply owner_get_result.
Qed.

(** X10: DELETE /todos/:id by the owner answers 200 "Todo deleted
    successfully" and removes that todo and no other: the collection is
    the old one without the document of that id.  From then on the same
    request, and a GET of the id, are answered 404. *)
Theorem owner_deletes_todo {J : JwtLib} {R : RegexEngine} now st req user id todo :
  NoDup (t_id <$> Todos st) ->
  authenticateToken now st req = inr user ->
  todo ∈ Todos st ->
  t_userId todo = p_userId user ->
  Mongoose.castObjectId id = Some (t_id todo) ->
  let st' :=
    with_todos st (List.filter (fun t => negb (has_key t_id todo t)) (Todos st)) in
  let notFound := mkResponse 404 (JError "Todo not found") in
  handle now st (DELETE_todos_id id) req =
    (st', mkResponse 200 (JMessage "Todo deleted successfully"))
  /\ (todo ∉ Todos st')
  /\ (forall t, t ∈ Todos st -> t <> todo -> t ∈ Todos st')
  /\ handle now st' (DELETE_todos_id id) req = (st', notFound)
  /\ handle now st' (GET_todos_id id) req = (st', notFound).
Proof.
  intros Hnd Hauth Hin Hown Hcast st' notFound.
  assert (Hgone : forall t, t ∈ Todos st' ->
            Mongoose.matches
              (TodoModel.byIdAndOwner (t_id todo) (p_userId user)) t = false).
  { intros t Ht. apply list_elem_of_In, filter_In in Ht as [_ Hk].
    apply negb_true_iff, bool_decide_eq_false in Hk.
    apply not_true_is_false. intros Hm.
    by apply byIdAndOwner_matches in Hm as [Hid _]. }
  destruct (no_match_not_found now user st' req id (t_id todo) Hcast Hgone)
    as (Hget & _ & Hdel).
  repeat split.
  - simpl. unfold guarded. rewrite Hauth. by apply owner_delete_result.
  - intros Ht. apply list_elem_of_In, filter_In in Ht as [_ Hk].
    apply negb_true_iff, bool_decide_eq_false in Hk. done.
  - intros t Ht Hne. apply list_elem_of_In, filter_In.
    split; [by apply list_elem_of_In|].
    apply negb_true_iff, bool_decide_eq_false. intros Hid. apply Hne.
    by eapply (unique_key t_id).
  - simpl. unfold guarded. unfold st' at 1.
    by rewrite authenticate_with_todos, Hauth.
  - simpl. unfold guarded. unfold st' at 1.
    by rewrite authenticate_with_todos, Hauth.
Qed.

(** X11: PUT /todos/:id by the owner answers 200 with the updated todo and
    replaces that document and no other.  The update keeps the todo's
    [_id], owner and [createdAt], sets [updatedAt] to the time of the
    request, and takes [title], [description] and [status] from the body
    where the body has them, as the strings they cast to. *)
Theorem owner_updates_todo {J : JwtLib} {R : RegexEngine}
    now st req user id todo title description stat :
  NoDup (t_id <$> Todos st) ->
  authenticateToken now st req = inr user ->
  todo ∈ Todos st ->
  t_userId todo = p_userId user ->
  Mongoose.castObjectId id = Some (t_id todo) ->
  TodoModel.castUpdate (body req !! "title") (body req !! "description")
    (body req !! "status") = inr (title, description, stat) ->
  exists updated,
    handle now st (PUT_todos_id id) req =
      (with_todos st
         ((fun t => if has_key t_id todo t then updated else t) <$> Todos st),
       mkResponse 200 (JTodo updated))
    /\ t_id updated = t_id todo
    /\ t_userId updated = t_userId todo
    /\ t_createdAt updated = t_createdAt todo
    /\ t_updatedAt updated = now
    /\ t_title updated = default (t_title todo) title
    /\ t_description updated = default (t_description todo) description
    /\ t_status updated = default (t_status todo) stat.
Proof.
  intros Hnd Hauth Hin Hown Hcast Hupd.
  exists (TodoModel.applyUpdate title description stat now todo).
  split; [|done].
  simpl. unfold guarded. rewrite Hauth.
  rewrite (owner_put_result user now st id req todo title description stat)
    by done.
  do 2 f_equal. apply list_fmap_ext. intros i t Ht.
  unfold has_key. case_bool_decide as Hid; [|done].
  apply list_elem_of_lookup_2 in Ht.
  by rewrite (unique_key t_id (Todos st) t todo).
Qed.

(** X8: a request leaves the todos of everyone but the authenticated user
    as they are, on every route and for every body: the todos a user [o]
    owns are the same, in the same order, after any request that is not
    authenticated as [o]. *)
Theorem other_owners_todos_untouched {J : JwtLib} {R : RegexEngine}
    now st r req o :
  (forall user, authenticateToken now st req = inr user -> p_userId user <> o) ->
  List.filter (owned_by o) (Todos (handle now st r req).1) =
    List.filter (owned_by o) (Todos st).
Proof.
  intros Hother.
  assert (Hguard : forall next,
            (forall user, p_userId user <> o ->
               List.filter (owned_by o) (Todos (next user).1) =
                 List.filter (owned_by o) (Todos st)) ->
            List.filter (owned_by o) (Todos (guarded now st req next).1) =
              List.filter (owned_by o) (Todos st)).
  { intros next Hnext. unfold guarded.
    destruct (authenticateToken now st req) as [rej|user]; [done|].
    apply Hnext. by apply Hother. }
  destruct r; cbn [handle].
  - apply Hguard. intros user _. unfold get_todos.
    by destruct (Mongoose.find _ _).
  - unfold post_signup.
    destruct (UserModel.create _ _ st) as [e|[u st1]] eqn:Hc; [done|].
    simpl. by rewrite (user_create_todos _ _ _ _ _ Hc).
  - unfold post_login.
    by destruct (UserModel.findOne _ _ st) as [e|[u|]].
  - apply Hguard. intros _ _. unfold post_logout.
    destruct (headers req !! "authorization") as [h|]; [|done].
    by destruct (JS.split " " h !! 1%nat).
  - apply Hguard. intros user Hne. unfold post_todos.
    destruct (_ || _); [done|]. destruct (_ && _); [done|].
    destruct (TodoModel.create _ _ _ _ _ st) as [e|[t st1]] eqn:Hc; [done|].
    simpl. destruct (todo_create_todos _ _ _ _ _ _ _ _ Hc) as [-> Ht].
    rewrite List.filter_app. simpl.
    rewrite (not_owned (p_userId user) o) by done. by rewrite app_nil_r.
  - apply Hguard. intros user _. unfold get_todo.
    by destruct (TodoModel.findOne _ _ st) as [e|[t|]].
  - apply Hguard. intros user Hne.
    unfold put_todo, TodoModel.findOneAndUpdate.
    destruct (Mongoose.castObjectId id) as [oid|]; [|done].
    destruct (TodoModel.castUpdate _ _ _) as [e|[[t0 d0] s0]]; [done|].
    destruct (Mongoose.update_first _ _ _) as [[t ts]|] eqn:Hu; [|done].
    simpl. eapply update_first_filter; [|exact Hu].
    intros x Hx. apply byIdAndOwner_matches in Hx as [_ Hx].
    split; by apply (not_owned (p_userId user)).
  - apply Hguard. intros user Hne.
    unfold delete_todo, TodoModel.findOneAndDelete.
    destruct (Mongoose.castObjectId id) as [oid|]; [|done].
    destruct (Mongoose.delete_first _ _) as [[t ts]|] eqn:Hd; [|done].
    simpl. eapply delete_first_filter; [|exact Hd].
    intros x Hx. apply byIdAndOwner_matches in Hx as [_ Hx].
    by apply (not_owned (p_userId user)).
Qed.

(** X14: what a user reads depends on that user's todos only: GET /todos
    and GET /todos/:id give the same response on any two collections that
    hold the same todos of the requesting user, whatever the others
    hold. *)
Theorem reads_depend_on_own_todos {J : JwtLib} {R : RegexEngine}
    now st req user todos :
  authenticateToken now st req = inr user ->
  List.filter (owned_by (p_userId user)) todos =
    List.filter (owned_by (p_userId user)) (Todos st) ->
  (handle now (with_todos st todos) GET_todos req).2 =
    (handle now st GET_todos req).2
  /\ forall id,
       (handle now (with_todos st todos) (GET_todos_id id) req).2 =
         (handle now st (GET_todos_id id) req).2.
Proof.
  intros Hauth Hsame. split.
  - simpl. unfold guarded. rewrite authenticate_with_todos, Hauth.
    unfold get_todos, Mongoose.find. simpl.
    destruct (Mongoose.filter_valid (todos_filter user req)); [|done]. simpl.
    do 2 f_equal.
    rewrite (filter_filter_implied _ (owned_by (p_userId user)) todos),
      (filter_filter_implied _ (owned_by (p_userId user)) (Todos st)).
    + by rewrite Hsame.
    + intros t Ht. rewrite todos_filter_matches in Ht.
      apply search_hit_owner in Ht. by apply bool_decide_eq_true.
    + intros t Ht. rewrite todos_filter_matches in Ht.
      apply search_hit_owner in Ht. by apply bool_decide_eq_true.
  - intros id. simpl. unfold guarded. rewrite authenticate_with_todos, Hauth.
    unfold get_todo, TodoModel.findOne, Mongoose.findOne. simpl.
    destruct (Mongoose.castObjectId id) as [oid|]; [|done].
    rewrite byIdAndOwner_valid.
    rewrite (find_filter_implied _ (owned_by (p_userId user)) todos),
      (find_filter_implied _ (owned_by (p_userId user)) (Todos st)).
    + rewrite Hsame. by destruct (List.find _ _).
    + intros t Ht. apply byIdAndOwner_matches in Ht as [_ Ht].
      by apply bool_decide_eq_true.
    + intros t Ht. apply byIdAndOwner_matches in Ht as [_ Ht].
      by apply bool_decide_eq_true.
Qed.

(** ** Signing up *)

Section Signup.
Context `{JwtLib} `{RegexEngine}.

Lemma no_user_named st u :
  (forall x, x ∈ Users st -> u_username x <> u) ->
  existsb (fun x => String.eqb (u_username x) u) (Users st) = false.
Proof.
  intros Hfree. apply not_true_is_false. intros Hex.
  apply existsb_exists in Hex as (x & Hx & Heq).
  apply String.eqb_eq in Heq. by apply (Hfree x); [apply list_elem_of_In|].
Qed.

Lemma a_user_named st u x :
  x ∈ Users st -> u_username x = u ->
  existsb (fun x => String.eqb (u_username x) u) (Users st) = true.
Proof.
  intros Hx Hu. apply existsb_exists. exists x.
  split; [by apply list_elem_of_In|]. by apply String.eqb_eq.
Qed.

Lemma signup_fresh_result now st req u p :
  body req !! "username" = Some (BStr u) -> u <> "" ->
  body req !! "password" = Some (BStr p) -> p <> "" ->
  (forall x, x ∈ Users st -> u_username x <> u) ->
  let newUser := {| u_id := nextId st; u_username := u; u_password := p |} in
  handle now st POST_signup req =
    ({| invalidatedTokens := invalidatedTokens st;
        Users := Users st ++ [newUser];
        Todos := Todos st;
        nextId := N.succ (nextId st) |},
     mkResponse 201 (JSignup "User created successfully" newUser)).
Proof.
  intros Hu Hune Hp Hpne Hfree newUser. simpl.
  unfold post_signup, UserModel.create, Mongoose.required. rewrite Hu, Hp.
  apply String.eqb_neq in Hune. apply String.eqb_neq in Hpne.
  simpl. rewrite Hune, Hpne. by rewrite no_user_named.
Qed.

Lemma signup_taken_result now st req u p x :
  body req !! "username" = Some (BStr u) -> u <> "" ->
  body req !! "password" = Some (BStr p) -> p <> "" ->
  x ∈ Users st -> u_username x = u ->
  handle now st POST_signup req =
    (st, mkResponse 400 (JErrorOf (DuplicateKeyError "username"))).
Proof.
  intros Hu Hune Hp Hpne Hx Hname. simpl.
  unfold post_signup, UserModel.create, Mongoose.required. rewrite Hu, Hp.
  apply String.eqb_neq in Hune. apply String.eqb_neq in Hpne.
  simpl. rewrite Hune, Hpne. by rewrite (a_user_named st u x).
Qed.

Lemma prefix_elem_of {A} (l1 l2 : list A) x :
  l1 `prefix_of` l2 -> x ∈ l1 -> x ∈ l2.
Proof. intros [k ->] Hx. apply elem_of_app. by left. Qed.

End Signup.

(** X1: POST /signup with a non-empty username that no user has and a
    non-empty password answers 201, stores the new user with the next
    ObjectId, and sends the stored document back, password included, as
    it was given. *)
Theorem signup_creates_user {J : JwtLib} {R : RegexEngine} now st req u p :
  body req !! "username" = Some (BStr u) -> u <> "" ->
  body req !! "password" = Some (BStr p) -> p <> "" ->
  (forall x, x ∈ Users st -> u_username x <> u) ->
  let newUser := {| u_id := nextId st; u_username := u; u_password := p |} in
  handle now st POST_signup req =
    ({| invalidatedTokens := invalidatedTokens st;
        Users := Users st ++ [newUser];
        Todos := Todos st;
        nextId := N.succ (nextId st) |},
     mkResponse 201 (JSignup "User created successfully" newUser)).
Proof. apply signup_fresh_result. Qed.

(** X2: a user who has signed up can log in from then on: after a
    successful signup and any further requests, POST /login with the same
    username and password answers 200 with a token signed for the id the
    signup gave the user. *)
Theorem signup_then_login {J : JwtLib} {R : RegexEngine}
    now st req u p cs now' req' :
  wf st ->
  body req !! "username" = Some (BStr u) -> u <> "" ->
  body req !! "password" = Some (BStr p) -> p <> "" ->
  (forall x, x ∈ Users st -> u_username x <> u) ->
  body req' !! "username" = Some (BStr u) ->
  body req' !! "password" = Some (BStr p) ->
  let st2 := (run (handle now st POST_signup req).1 cs).1 in
  handle now' st2 POST_login req' =
    (st2, mkResponse 200
            (JLogin "Login successful" (jwt_sign (nextId st) secretKey 3600 now'))).
Proof.
  intros Hwf Hu Hune Hp Hpne Hfree Hu' Hp' st2.
  pose proof (handle_wf now st POST_signup req Hwf) as Hwf1.
  pose proof (run_wf _ cs Hwf1) as Hwf2. fold st2 in Hwf2.
  pose proof (run_users (handle now st POST_signup req).1 cs) as Hpre.
  fold st2 in Hpre.
  rewrite (signup_fresh_result now st req u p) in Hpre by done. simpl in Hpre.
  set (newUser := {| u_id := nextId st; u_username := u; u_password := p |}) in *.
  assert (Hin : newUser ∈ Users st2).
  { eapply prefix_elem_of; [exact Hpre|]. apply elem_of_app. right. by left. }
  destruct Hwf2 as (_ & _ & Hnames).
  simpl. unfold post_login. rewrite Hu', Hp'.
  by rewrite (user_findOne_some st2 newUser Hnames Hin).
Qed.

(** X3: a username is taken for good: after a successful signup and any
    further requests, a signup with the same username, whatever its
    password, answers 400 with the duplicate-key error of the unique index
    and changes nothing. *)
Theorem signup_twice_is_rejected {J : JwtLib} {R : RegexEngine}
    now st req u p cs now' req' p' :
  body req !! "username" = Some (BStr u) -> u <> "" ->
  body req !! "password" = Some (BStr p) -> p <> "" ->
  (forall x, x ∈ Users st -> u_username x <> u) ->
  body req' !! "username" = Some (BStr u) ->
  body req' !! "password" = Some (BStr p') -> p' <> "" ->
  let st2 := (run (handle now st POST_signup req).1 cs).1 in
  handle now' st2 POST_signup req' =
    (st2, mkResponse 400 (JErrorOf (DuplicateKeyError "username"))).
Proof.
  intros Hu Hune Hp Hpne Hfree Hu' Hp' Hpne' st2.
  pose proof (run_users (handle now st POST_signup req).1 cs) as Hpre.
  fold st2 in Hpre.
  rewrite (signup_fresh_result now st req u p) in Hpre by done. simpl in Hpre.
  apply (signup_taken_result now' st2 req' u p'
           {| u_id := nextId st; u_username := u; u_password := p |});
    try done.
  eapply prefix_elem_of; [exact Hpre|]. apply elem_of_app. right. by left.
Qed.

(** ** Reading back what was created *)

Section Created.
Context `{JwtLib} `{RegexEngine}.

(** A POST /todos answered 201 has stored the todo it sends back, under
    the next ObjectId and for the authenticated user. *)
Lemma post_todos_created now st req st' resp :
  handle now st POST_todos req = (st', resp) ->
  status resp = 201 ->
  exists user todo,
    authenticateToken now st req = inr user
    /\ resp = mkResponse 201 (JTodo todo)
    /\ st' = TodoModel.insert st todo
    /\ t_id todo = nextId st
    /\ t_userId todo = p_userId user.
Proof.
  simpl. unfold guarded. intros Hh Hst.
  destruct (authenticateToken now st req) as [rej|user] eqn:Hauth.
  - simplify_eq. unfold authenticateToken in Hauth.
    repeat case_match; simplify_eq; simpl in Hst; done.
  - exists user. unfold post_todos, TodoModel.create in Hh.
    repeat case_match; simplify_eq; simpl in Hst; try done.
    all: eexists; repeat split; done.
Qed.

(** Without terms in the query the search is the test for the owner. *)
Lemma search_hit_no_terms user req t :
  query req !! "title" = None ->
  query req !! "description" = None ->
  query req !! "status" = None ->
  search_hit user req t = owned_by (p_userId user) t.
Proof.
  intros Ht Hd Hs. unfold search_hit, regex_term, equal_term, owned_by.
  rewrite Ht, Hd, Hs. simpl. rewrite !andb_true_r.
  apply bool_decide_ext. split; congruence.
Qed.

End Created.

(** X12: a todo that POST /todos has created (201) can be read back by its
    owner: GET /todos/:id with its id answers 200 with the todo as it was
    sent back by the create, and GET /todos without search terms lists the
    owner's earlier todos followed by the new one. *)
Theorem created_todo_is_readable {J : JwtLib} {R : RegexEngine}
    now st req st' todo now' req' user' id :
  wf st ->
  handle now st POST_todos req = (st', mkResponse 201 (JTodo todo)) ->
  authenticateToken now' st' req' = inr user' ->
  p_userId user' = t_userId todo ->
  Mongoose.castObjectId id = Some (t_id todo) ->
  handle now' st' (GET_todos_id id) req' = (st', mkResponse 200 (JTodo todo))
  /\ (query req' !! "title" = None ->
      query req' !! "description" = None ->
      query req' !! "status" = None ->
      handle now' st' GET_todos req' =
        (st', mkResponse 200
                (JTodos (List.filter (owned_by (t_userId todo)) (Todos st)
                         ++ [todo])))).
Proof.
  intros Hwf Hh Hauth' Hown Hcast.
  pose proof (handle_wf now st POST_todos req Hwf) as Hwf'.
  rewrite Hh in Hwf'. simpl in Hwf'.
  destruct (post_todos_created _ _ _ _ _ Hh eq_refl)
    as (user & todo0 & _ & Hresp & -> & Hid & Huser).
  injection Hresp as <-.
  destruct Hwf' as (Hnd & _ & _). split.
  - simpl. unfold guarded. rewrite Hauth'.
    apply owner_get_result; try done.
    simpl. apply elem_of_app. right. by left.
  - intros Ht Hd Hs. simpl. unfold guarded. rewrite Hauth'.
    unfold get_todos, Mongoose.find. rewrite todos_filter_valid.
    unfold pattern_ok. rewrite Ht, Hd. simpl. do 3 f_equal.
    rewrite (List.filter_ext _ (owned_by (t_userId todo))).
    + rewrite List.filter_app. simpl. unfold owned_by at 2.
      by rewrite bool_decide_eq_true_2.
    + intros t. rewrite todos_filter_matches, search_hit_no_terms by done.
      by rewrite Hown.
Qed.

(** ** The authorization header *)

(** X13: the middleware does not look at the scheme of the authorization
    header: the token is the second of the words the header splits into at
    single spaces, so two headers that differ in their first word only,
    [Bearer t] and [Basic t] say, are answered alike, and words after the
    token are ignored. *)
Theorem scheme_is_not_checked {J : JwtLib} now st req req' w w' rest :
  word w = true ->
  word w' = true ->
  headers req !! "authorization" = Some (String.append w (String " " rest)) ->
  headers req' !! "authorization" = Some (String.append w' (String " " rest)) ->
  authenticateToken now st req' = authenticateToken now st req
  /\ header_token (headers req !! "authorization") = JS.split " " rest !! 0%nat.
Proof.
  intros Hw Hw' Hh Hh'. unfold authenticateToken.
  by rewrite Hh, Hh', !header_token_second_word.
Qed.

(** ** Logging out one session *)

(** X15: a logout revokes the token it carries and no other: a request
    whose token differs from the one of the logout is answered by the
    middleware after the logout as it would have been before it. *)
Theorem logout_revokes_one_token {J : JwtLib} {R : RegexEngine}
    now st req st' resp now' req' :
  handle now st POST_logout req = (st', resp) ->
  header_token (headers req' !! "authorization") <>
    header_token (headers req !! "authorization") ->
  authenticateToken now' st' req' = authenticateToken now' st req'.
Proof.
  cbn [handle]. unfold guarded. intros Hh Hdiff.
  destruct (authenticateToken now st req) as [rej|user] eqn:Hauth.
  - by injection Hh as <- _.
  - apply authenticate_next in Hauth
      as (h & token & Hh1 & Hs & Hne & Htok & _ & _).
    unfold post_logout in Hh. rewrite Hh1, Hs in Hh. injection Hh as <- _.
    rewrite Hh1, Htok in Hdiff.
    unfold authenticateToken.
    destruct (JS.truthy (header_token (headers req' !! "authorization")))
      eqn:Ht; [|done].
    apply truthy_Some_inv in Ht as (token' & Ht' & _).
    rewrite Ht' in *. simpl. rewrite includes_push.
    destruct (String.eqb_spec token' token) as [->|_]; [done|].
    by rewrite orb_false_r.
Qed.

(** ** The further properties at the scenarios *)

Section AtScenarios.
#[local] Existing Instance PlainJwt.lib.
#[local] Existing Instance DotRegex.engine.
Import Scenario Opening.

Lemma scenario_ids : NoDup (t_id <$> Todos st0).
Proof. simpl. apply NoDup_singleton. Qed.

Lemma scenario_wf : wf st0.
Proof.
  split; [apply scenario_ids|]. split.
  - simpl. apply Forall_singleton. simpl. lia.
  - simpl. apply NoDup_cons. split; [|apply NoDup_singleton].
    intros Hx. apply list_elem_of_singleton in Hx. discriminate.
Qed.

Lemma nobody_yet (u : string) : forall x, x ∈ Users initial -> u_username x <> u.
Proof. intros x Hx. inversion Hx. Qed.

(** bob's payload, as [jwt.verify] returns it. *)
Lemma bob_authenticated :
  authenticateToken 6000 st0 (as_user bob [] []) =
    inr {| p_userId := 1%N; p_iat := 5; p_exp := 3605 |}.
Proof. vm_compute. reflexivity. Qed.

Lemma errors_change_nothing_witness :
  (handle 6000 st0 (DELETE_todos_id xylophone_id) (as_user alice [] [])).1 = st0.
Proof.
  apply (errors_change_nothing 6000 st0 (DELETE_todos_id xylophone_id)
           (as_user alice [] []) _
           (handle 6000 st0 (DELETE_todos_id xylophone_id) (as_user alice [] [])).2).
  - apply surjective_pairing.
  - vm_compute. discriminate.
Defined.

Lemma other_owners_todos_untouched_witness :
  List.filter (owned_by 1%N)
    (Todos (handle 6600 st0 POST_todos
              (as_user alice [] [("title", "milk"); ("description", "2 l")])).1) =
    List.filter (owned_by 1%N) (Todos st0).
Proof.
  apply (other_owners_todos_untouched 6600 st0 POST_todos
           (as_user alice [] [("title", "milk"); ("description", "2 l")]) 1%N).
  intros user Hu. vm_compute in Hu. injection Hu as <-. simpl. discriminate.
Defined.

Lemma owner_reads_todo_witness :
  handle 6000 st0 (GET_todos_id xylophone_id) (as_user bob [] []) =
    (st0, mkResponse 200 (JTodo xylophone)).
Proof.
  apply (owner_reads_todo 6000 st0 (as_user bob [] [])
           {| p_userId := 1%N; p_iat := 5; p_exp := 3605 |} xylophone_id xylophone).
  - apply scenario_ids.
  - apply bob_authenticated.
  - simpl. by left.
  - reflexivity.
  - vm_compute. reflexivity.
Defined.

Lemma owner_deletes_todo_witness :
  let st' :=
    with_todos st0
      (List.filter (fun t => negb (has_key t_id xylophone t)) (Todos st0)) in
  let notFound := mkResponse 404 (JError "Todo not found") in
  handle 6000 st0 (DELETE_todos_id xylophone_id) (as_user bob [] []) =
    (st', mkResponse 200 (JMessage "Todo deleted successfully"))
  /\ (xylophone ∉ Todos st')
  /\ (forall t, t ∈ Todos st0 -> t <> xylophone -> t ∈ Todos st')
  /\ handle 6000 st' (DELETE_todos_id xylophone_id) (as_user bob [] []) =
       (st', notFound)
  /\ handle 6000 st' (GET_todos_id xylophone_id) (as_user bob [] []) =
       (st', notFound).
Proof.
  apply (owner_deletes_todo 6000 st0 (as_user bob [] [])
           {| p_userId := 1%N; p_iat := 5; p_exp := 3605 |} xylophone_id xylophone).
  - apply scenario_ids.
  - apply bob_authenticated.
  - simpl. by left.
  - reflexivity.
  - vm_compute. reflexivity.
Defined.

Lemma owner_updates_todo_witness :
  exists updated,
    handle 6000 st0 (PUT_todos_id xylophone_id)
      (as_user bob [] [("status", "completed")]) =
      (with_todos st0
         ((fun t => if has_key t_id xylophone t then updated else t) <$> Todos st0),
       mkResponse 200 (JTodo updated))
    /\ t_id updated = t_id xylophone
    /\ t_userId updated = t_userId xylophone
    /\ t_createdAt updated = t_createdAt xylophone
    /\ t_updatedAt updated = 6000
    /\ t_title updated = default (t_title xylophone) None
    /\ t_description updated = default (t_description xylophone) None
    /\ t_status updated = default (t_status xylophone) (Some "completed").
Proof.
  apply (owner_updates_todo 6000 st0 (as_user bob [] [("status", "completed")])
           {| p_userId := 1%N; p_iat := 5; p_exp := 3605 |} xylophone_id xylophone
           None None (Some "completed")).
  - apply scenario_ids.
  - vm_compute. reflexivity.
  - simpl. by left.
  - reflexivity.
  - vm_compute. reflexivity.
  - vm_compute. reflexivity.
Defined.

Lemma reads_depend_on_own_todos_witness :
  let milk :=
    {| t_id := 7%N; t_userId := 0%N; t_title := "milk"; t_description := "2 l";
       t_status := "pending"; t_createdAt := 1; t_updatedAt := 1 |} in
  (handle 6000 (with_todos st0 [milk; xylophone]) GET_todos (as_user bob [] [])).2 =
    (handle 6000 st0 GET_todos (as_user bob [] [])).2
  /\ forall id,
       (handle 6000 (with_todos st0 [milk; xylophone]) (GET_todos_id id)
          (as_user bob [] [])).2 =
         (handle 6000 st0 (GET_todos_id id) (as_user bob [] [])).2.
Proof.
  apply (reads_depend_on_own_todos 6000 st0 (as_user bob [] [])
           {| p_userId := 1%N; p_iat := 5; p_exp := 3605 |}).
  - apply bob_authenticated.
  - reflexivity.
Defined.

Lemma created_todo_is_readable_witness :
  let create := as_user alice [] [("title", "milk"); ("description", "2 l")] in
  let milk := TodoModel.document st0 0%N "milk" "2 l" "pending" 6600 in
  let st' := TodoModel.insert st0 milk in
  handle 7000 st' (GET_todos_id "000000000000000000000003") (as_user alice [] []) =
    (st', mkResponse 200 (JTodo milk))
  /\ handle 7000 st' GET_todos (as_user alice [] []) =
       (st', mkResponse 200
               (JTodos (List.filter (owned_by (t_userId milk)) (Todos st0)
                        ++ [milk]))).
Proof.
  destruct (created_todo_is_readable 6600 st0
              (as_user alice [] [("title", "milk"); ("description", "2 l")])
              (TodoModel.insert st0
                 (TodoModel.document st0 0%N "milk" "2 l" "pending" 6600))
              (TodoModel.document st0 0%N "milk" "2 l" "pending" 6600)
              7000 (as_user alice [] [])
              {| p_userId := 0%N; p_iat := 5; p_exp := 3605 |}
              "000000000000000000000003") as [Hget Hlist].
  - apply scenario_wf.
  - vm_compute. reflexivity.
  - vm_compute. reflexivity.
  - reflexivity.
  - vm_compute. reflexivity.
  - split; [exact Hget|]. apply Hlist; reflexivity.
Defined.

Lemma scheme_is_not_checked_witness :
  let tok := token_of bob in
  authenticateToken 6000 st0
    {| headers := {[ "authorization" := String.append "Basic" (String " " tok) ]};
       query := ∅; body := ∅ |} =
    authenticateToken 6000 st0
      {| headers := {[ "authorization" := String.append "Bearer" (String " " tok) ]};
         query := ∅; body := ∅ |}
  /\ header_token
       (headers
          {| headers := {[ "authorization" := String.append "Bearer" (String " " tok) ]};
             query := ∅; body := ∅ |} !! "authorization") =
     JS.split " " tok !! 0%nat.
Proof.
  apply (scheme_is_not_checked 6000 st0 _ _ "Bearer" "Basic" (token_of bob)).
  - reflexivity.
  - reflexivity.
  - reflexivity.
  - reflexivity.
Defined.

Lemma signup_creates_user_witness :
  let carol := {| u_id := 0%N; u_username := "carol"; u_password := "pw3" |} in
  handle 1000 initial POST_signup (credentials "carol" "pw3") =
    ({| invalidatedTokens := []; Users := [] ++ [carol]; Todos := [];
        nextId := N.succ 0 |},
     mkResponse 201 (JSignup "User created successfully" carol)).
Proof.
  apply (signup_creates_user 1000 initial (credentials "carol" "pw3") "carol" "pw3").
  - reflexivity.
  - discriminate.
  - reflexivity.
  - discriminate.
  - apply nobody_yet.
Defined.

Lemma signup_then_login_witness :
  let st2 := (run (step initial signup_carol).1 between).1 in
  handle 4000 st2 POST_login (credentials "carol" "pw3") =
    (st2, mkResponse 200
            (JLogin "Login successful" (jwt_sign 0%N secretKey 3600 4000))).
Proof.
  apply (signup_then_login 1000 initial (credentials "carol" "pw3")
           "carol" "pw3" between 4000 (credentials "carol" "pw3")).
  - apply wf_initial.
  - reflexivity.
  - discriminate.
  - reflexivity.
  - discriminate.
  - apply nobody_yet.
  - reflexivity.
  - reflexivity.
Defined.

Lemma signup_twice_is_rejected_witness :
  let st2 := (run (step initial signup_carol).1 between).1 in
  handle 4000 st2 POST_signup (credentials "carol" "other") =
    (st2, mkResponse 400 (JErrorOf (DuplicateKeyError "username"))).
Proof.
  apply (signup_twice_is_rejected 1000 initial (credentials "carol" "pw3")
           "carol" "pw3" between 4000 (credentials "carol" "other") "other").
  - reflexivity.
  - discriminate.
  - reflexivity.
  - discriminate.
  - apply nobody_yet.
  - reflexivity.
  - reflexivity.
  - discriminate.
Defined.

Lemma logout_revokes_one_token_witness :
  authenticateToken 7000 st1 (as_user alice [] []) =
    authenticateToken 7000 st0 (as_user alice [] []).
Proof.
  apply (logout_revokes_one_token 6000 st0 (as_user bob [] []) st1
           (mkResponse 200 (JMessage "Logout successful")) 7000
           (as_user alice [] [])).
  - vm_compute. reflexivity.
  - vm_compute. discriminate.
Defined.

End AtScenarios.
